(** * AD9833 waveform generator: the register protocol of [AD9833_Sine_Sq_Trang.py]

    A shallow embedding of the [AD9833] class: its control-bit constants,
    the [write] helper that frames one 16-bit word on the SPI bus, the
    constructor, [set_frequency] and [set_waveform_mode]; and of the main
    block that drives it: the start-up calls, the command loop from the
    split input line on, and the reset of the [finally] block.

    Conventions of the embedding.
    - Python integers are [Z]; [|], [&], [<<], [>>] are [Z.lor], [Z.land],
      [Z.shiftl], [Z.shiftr] (same two's-complement reading of negatives).
    - A frequency is a rational number [Q] (every Python int and every
      finite float is one).  [round] is Python 3's round-half-to-even.
      Line 60 has two readings.  [freq_setting] takes its product and
      quotient exactly; the methods are written with it.  [line_60] is the
      line as Python evaluates it, in binary64, raising where the product
      is beyond the largest double.  On the doubles of magnitude below
      1.6 GHz the two agree ([Binary64.line_60_agrees]); from there on they
      differ, so statements that depend on the tuning word or on the call
      reaching its writes are stated on that range.
    - The object's attributes and the bus it drives form one record; a
      method is a function from that record to the record after the call
      and an outcome.  An exception raised by the bus leaves every
      attribute assignment made before it in place, as in Python.
    - The bus is the collaborator [self.I.SPI]: it records the operations
      it receives and carries a fault schedule telling which [send16]
      attempts raise.
    - The command loop runs on the lines typed, each already lower-cased
      and split into tokens; [float] is a function handed in, defined on
      the tokens that denote a finite number.  Printing is left out. *)

From Stdlib Require Import ZArith QArith Qround Qabs Qpower List String Bool Lia Lqa.
Import ListNotations.

Local Open Scope Z_scope.

(** ** The SPI collaborator *)

Inductive spi_op : Type :=
| SetParameters (a b c d e : Z)
| Start (cs : string)
| Send16 (w : Z)
| Stop (cs : string).

(** [trace] is chronological; [attempts] counts the [send16] calls made so
    far; [faults k = true] makes the [k]-th [send16] call (from 0) raise. *)
Record SPI : Type := mkSPI {
  trace : list spi_op;
  attempts : nat;
  faults : nat -> bool
}.

Inductive outcome : Type :=
| Done
| TransportError.

Definition spi_log (op : spi_op) (s : SPI) : SPI :=
  mkSPI (trace s ++ [op]) (attempts s) (faults s).

Definition spi_set_parameters (a b c d e : Z) (s : SPI) : SPI :=
  spi_log (SetParameters a b c d e) s.

Definition spi_start (cs : string) (s : SPI) : SPI := spi_log (Start cs) s.

Definition spi_stop (cs : string) (s : SPI) : SPI := spi_log (Stop cs) s.

Definition spi_send16 (w : Z) (s : SPI) : SPI * outcome :=
  if faults s (attempts s)
  then (mkSPI (trace s) (S (attempts s)) (faults s), TransportError)
  else (mkSPI (trace s ++ [Send16 w]) (S (attempts s)) (faults s), Done).

(** The 16-bit words a trace delivered to the chip, oldest first. *)
Fixpoint words (t : list spi_op) : list Z :=
  match t with
  | [] => []
  | Send16 w :: t' => w :: words t'
  | _ :: t' => words t'
  end.

(** A bus on which no transfer ever fails, and one whose [k]-th fails. *)
Definition healthy (t : list spi_op) : SPI := mkSPI t 0 (fun _ => false).

Definition failing_at (k : nat) (t : list spi_op) : SPI :=
  mkSPI t 0 (fun i => Nat.eqb i k).

(** ** The [AD9833] object *)

Definition DDS_CLOCK : Q := 25000000.
Definition DDS_MAX_FREQ : Z := 268435456.

Definition DDS_B28 : Z := 13.
Definition DDS_FSELECT : Z := 11.
Definition DDS_RESET : Z := 8.
Definition DDS_OPBITEN : Z := 5.
Definition DDS_MODE : Z := 1.

Definition DDS_SINE : Z := 0.
Definition DDS_TRIANGLE : Z := Z.shiftl 1 DDS_MODE.
Definition DDS_SQUARE : Z := Z.shiftl 1 DDS_OPBITEN.

Record AD9833 : Type := mkAD9833 {
  CS : string;
  I : SPI;
  waveform_mode : Z;
  active_channel : Z;
  frequency : Q
}.

(** A method body: runs on the object, returns the object and how it ended. *)
Definition method : Type := AD9833 -> AD9833 * outcome.

Definition skip : method := fun self => (self, Done).

(** Sequencing: a raised error stops the rest, the object stays as it is. *)
Definition seq (m1 m2 : method) : method :=
  fun self =>
    match m1 self with
    | (self', Done) => m2 self'
    | (self', TransportError) => (self', TransportError)
    end.

Notation "m1 ;; m2" := (seq m1 m2) (at level 61, right associativity).

Definition set_waveform_mode_attr (v : Z) : method :=
  fun self =>
    (mkAD9833 (CS self) (I self) v (active_channel self) (frequency self), Done).

Definition set_active_channel_attr (v : Z) : method :=
  fun self =>
    (mkAD9833 (CS self) (I self) (waveform_mode self) v (frequency self), Done).

Definition set_frequency_attr (v : Q) : method :=
  fun self =>
    (mkAD9833 (CS self) (I self) (waveform_mode self) (active_channel self) v, Done).

(** [write]: [SPI.start(CS)], [SPI.send16(con)], [SPI.stop(CS)]. *)
Definition write (con : Z) : method :=
  fun self =>
    let s1 := spi_start (CS self) (I self) in
    match spi_send16 con s1 with
    | (s2, Done) =>
        (mkAD9833 (CS self) (spi_stop (CS self) s2) (waveform_mode self)
                  (active_channel self) (frequency self), Done)
    | (s2, TransportError) =>
        (mkAD9833 (CS self) s2 (waveform_mode self)
                  (active_channel self) (frequency self), TransportError)
    end.

(** Python truthiness of an integer. *)
Definition truthy (z : Z) : bool := negb (z =? 0).

(** Python 3 [round(x)] on a real: nearest integer, ties to even. *)
Definition py_round (x : Q) : Z :=
  let n := Qfloor x in
  match Qcompare (x - inject_Z n) (1 # 2) with
  | Lt => n
  | Gt => n + 1
  | Eq => if Z.even n then n else n + 1
  end.

(** Line 60 with the clock as an argument, then at the class constant. *)
Definition freq_setting_at (clock freq : Q) : Z :=
  py_round (freq * inject_Z DDS_MAX_FREQ / clock)%Q.

Definition freq_setting (freq : Q) : Z := freq_setting_at DDS_CLOCK freq.

(** [__init__(I)] with a bus handed in. *)
Definition init (bus : SPI) : AD9833 * outcome :=
  let self :=
    mkAD9833 "CS1" (spi_set_parameters 2 2 1 1 0 bus) DDS_SINE 0 1000 in
  (write (Z.shiftl 1 DDS_RESET) ;;
   (fun self => write (Z.lor (Z.shiftl 1 DDS_B28) (waveform_mode self)) self))
    self.

(** [args.get('phase', 0)]. *)
Definition get_phase (phase : option Z) : Z :=
  match phase with
  | Some p => p
  | None => 0
  end.

Definition regsel_of (register : Z) : Z :=
  if truthy register then 0x8000 else 0x4000.

Definition set_frequency (freq : Q) (register : Z) (phase : option Z) : method :=
  set_active_channel_attr register ;;
  set_frequency_attr freq ;;
  (fun self =>
     let fs := freq_setting freq in
     let modebits := Z.lor (Z.shiftl 1 DDS_B28) (waveform_mode self) in
     let regsel := regsel_of register in
     (write (Z.lor (Z.shiftl 1 DDS_RESET) modebits) ;;
      write (Z.land (Z.lor regsel (Z.land fs 0x3FFF)) 0xFFFF) ;;
      write (Z.land (Z.lor regsel (Z.land (Z.shiftr fs 14) 0x3FFF)) 0xFFFF) ;;
      write (Z.lor 0xc000 (get_phase phase)) ;;
      write modebits) self).

Definition set_waveform_mode (mode : Z) : method :=
  set_waveform_mode_attr mode ;;
  (fun self =>
     let modebits :=
       if truthy (active_channel self)
       then Z.lor mode (Z.shiftl 1 DDS_FSELECT)
       else mode in
     write modebits self).

(** ** The interactive front end, from the parsed command on (lines 135-155)

    [wave_type] and [new_freq] are the two fields of the command line after
    [float(parts[1])].  Every exception of the two calls is caught by the
    loop's [except Exception] and printed, so the step itself ends normally. *)
Definition mode_const_of (wave_type : string) : option Z :=
  if String.eqb wave_type "s" then Some DDS_SINE
  else if String.eqb wave_type "t" then Some DDS_TRIANGLE
  else if String.eqb wave_type "q" then Some DDS_SQUARE
  else None.

Definition catching (m : method) : method :=
  fun self => (fst (m self), Done).

Definition command_step (wave_type : string) (new_freq : Q) : method :=
  if Qle_bool new_freq 0 then skip
  else
    match mode_const_of wave_type with
    | Some mode_const =>
        catching (set_waveform_mode mode_const ;; set_frequency new_freq 0 None)
    | None => skip
    end.

(** ** Observations used by the statements *)

(** The next [n] transfers of the bus succeed. *)
Definition clear_for (n : nat) (s : SPI) : Prop :=
  forall k, (k < n)%nat -> faults s (attempts s + k) = false.

(** One framed transfer of [w] on chip select [cs]. *)
Definition frame (cs : string) (w : Z) : list spi_op :=
  [Start cs; Send16 w; Stop cs].

(** The five words of [set_frequency], as lines 67-79 build them. *)
Definition five_words (mode : Z) (freq : Q) (register : Z) (phase : option Z)
  : list Z :=
  let fs := freq_setting freq in
  let modebits := Z.lor (Z.shiftl 1 DDS_B28) mode in
  let regsel := regsel_of register in
  [ Z.lor (Z.shiftl 1 DDS_RESET) modebits;
    Z.land (Z.lor regsel (Z.land fs 0x3FFF)) 0xFFFF;
    Z.land (Z.lor regsel (Z.land (Z.shiftr fs 14) 0x3FFF)) 0xFFFF;
    Z.lor 0xc000 (get_phase phase);
    modebits ].

(** ** Statements of the spec and helpers for the proofs *)

(** A run of [write]s, one per word, used to reason about the write
    sequences of the methods. *)
Fixpoint write_all (ws : list Z) : method :=
  match ws with
  | [] => skip
  | w :: rest => write w ;; write_all rest
  end.


(** A freshly constructed controller on a bus whose fifth transfer fails:
    two transfers go to the constructor, so the third write of the next
    [set_frequency] is the one that raises. *)
Definition third_write_fails : AD9833 := fst (init (failing_at 4 [])).

(** A frequency the spec wants refused: not positive, or with a tuning word
    that does not fit in 28 bits. *)
Definition out_of_range (freq : Q) : Prop :=
  (freq <= 0)%Q \/ ~ (0 <= freq_setting freq < 2 ^ 28).

(** The rejection as the spec words it: the call does not end normally and
    the bus has seen nothing. *)
Definition rejected_before_any_write
  (freq : Q) (register : Z) (phase : option Z) (self : AD9833) : Prop :=
  let r := set_frequency freq register phase self in
  snd r <> Done /\ trace (I (fst r)) = trace (I self).

(** The three modes the class names. *)
Definition standard_mode (mode : Z) : Prop :=
  mode = DDS_SINE \/ mode = DDS_TRIANGLE \/ mode = DDS_SQUARE.

(** The state the spec gives a fresh controller. *)
Definition initial_state_of_spec (self : AD9833) : Prop :=
  waveform_mode self = DDS_SINE /\
  active_channel self = 0 /\
  (frequency self == 0)%Q.

(** The control word as the spec composes it: B28 flag, mode bits, and the
    frequency-select bit for channel 1. *)
Definition spec_control_word (mode channel : Z) : Z :=
  Z.lor (Z.lor (Z.shiftl 1 DDS_B28) mode)
        (if channel =? 1 then Z.shiftl 1 DDS_FSELECT else 0).

(** ** Line 60 in binary64

    [freq * self.DDS_MAX_FREQ / self.DDS_CLOCK] divides by the float
    [25000000.0], so Python evaluates it in binary64: the product (for an
    int [freq], its conversion to float) is rounded to the nearest double,
    then the quotient is, and [round] acts on that double.  A result beyond
    the largest double makes the line raise [OverflowError]. *)

(** [floor (log2 |q|)] for [q <> 0]. *)
Definition ilog2 (q : Q) : Z :=
  let d := Z.log2 (Z.abs (Qnum q)) - Z.log2 (Zpos (Qden q)) in
  if Qle_bool (2 ^ d) (Qabs q) then d else d - 1.

(** The double nearest to [q], ties to the even significand: 53 bits above
    the exponent of [q], the subnormal grid 2^-1074 below 2^-1022.  [None]
    when the result is beyond the largest double. *)
Definition b64_round (q : Q) : option Q :=
  if Qeq_bool q 0 then Some q
  else
    let s := Z.max (ilog2 q) (-1022) - 52 in
    let r := (inject_Z (py_round (q / 2 ^ s)) * 2 ^ s)%Q in
    if Qle_bool (2 ^ 1024) (Qabs r) then None else Some r.

(** Line 60 as Python evaluates it; [None] is its [OverflowError]. *)
Definition line_60 (freq : Q) : option Z :=
  match b64_round (freq * inject_Z DDS_MAX_FREQ) with
  | Some x1 =>
      match b64_round (x1 / DDS_CLOCK) with
      | Some x2 => Some (py_round x2)
      | None => None
      end
  | None => None
  end.

(** A number a double can hold: a significand below 2^53 in magnitude
    times a power of two not under 2^-1074.  Every Python int of magnitude
    below 2^53 is one. *)
Definition binary64 (q : Q) : Prop :=
  exists m e : Z,
    Z.abs m < 2 ^ 53 /\ -1074 <= e /\ (q == inject_Z m * 2 ^ e)%Q.

(** The frequencies on which line 60 in binary64 gives the exactly rounded
    quotient [freq_setting]: magnitude below 1.6 GHz (64 times the clock). *)
Definition exact_range (freq : Q) : Prop := (Qabs freq < 1600000000)%Q.

(** ** The rest of the main block *)

(** Lines 122-155 of the loop, from [parts = input_str.split()] on.
    [float_of] stands for [float(parts[1])] on a finite number, [None] for
    its [ValueError].  The boolean tells whether the loop was left by
    [break]. *)
Definition loop_body
  (float_of : string -> option Q) (parts : list string) (self : AD9833)
  : AD9833 * bool :=
  match parts with
  | first :: _ =>
      if String.eqb first "x" then (self, true)
      else
        match parts with
        | [wave_type; number] =>
            match float_of number with
            | Some new_freq =>
                (fst (command_step wave_type new_freq self), false)
            | None => (self, false)
            end
        | _ => (self, false)
        end
  | [] => (self, false)
  end.

(** The [while True] loop on the lines typed until it ends, by an exit line
    or by Ctrl-C at the prompt after the last one. *)
Fixpoint main_loop
  (float_of : string -> option Q) (lines : list (list string)) (self : AD9833)
  : AD9833 :=
  match lines with
  | [] => self
  | parts :: rest =>
      match loop_body float_of parts self with
      | (self', true) => self'
      | (self', false) => main_loop float_of rest self'
      end
  end.

(** Line 173, the reset written by the [finally] block. *)
Definition exit_reset : method := write (Z.shiftl 1 DDS_RESET).

(** How the program ends: normally, or by an exception nobody catches. *)
Inductive ending : Type :=
| Exited
| Crashed.

(** The main block with a bus handed in (lines 101-107, the loop, and the
    [finally] block).  When the constructor raises, [A] is unbound and the
    [finally] block cannot write; when the first two calls raise, the
    [finally] block still writes the reset. *)
Definition program
  (float_of : string -> option Q) (bus : SPI) (lines : list (list string))
  : AD9833 * ending :=
  match init bus with
  | (A, TransportError) => (A, Crashed)
  | (A, Done) =>
      match (set_waveform_mode DDS_SINE ;; set_frequency 1000 0 None) A with
      | (A1, TransportError) => (fst (exit_reset A1), Crashed)
      | (A1, Done) =>
          match exit_reset (main_loop float_of lines A1) with
          | (A2, Done) => (A2, Exited)
          | (A2, TransportError) => (A2, Crashed)
          end
      end
  end.

(** Chip selects asserted and not yet released on a trace. *)
Fixpoint cs_depth (t : list spi_op) : Z :=
  match t with
  | [] => 0
  | Start _ :: t' => cs_depth t' + 1
  | Stop _ :: t' => cs_depth t' - 1
  | _ :: t' => cs_depth t'
  end.

(** A bus on which no transfer ever raises. *)
Definition never_fails (s : SPI) : Prop := forall k : nat, faults s k = false.

(** A word that fits the 16 bits of one transfer. *)
Definition word16 (w : Z) : Prop := 0 <= w < 2 ^ 16.

(** A word that, when it addresses the control register (bits 15 and 14
    clear), leaves the frequency-select bit clear. *)
Definition keeps_channel_0 (w : Z) : Prop :=
  Z.testbit w 15 = false -> Z.testbit w 14 = false ->
  Z.testbit w DDS_FSELECT = false.

(** The bus of [after] holds the words of [before] followed by new words
    that all satisfy [P]. *)
Definition extends_by (P : Z -> Prop) (before after : AD9833) : Prop :=
  exists new : list Z,
    words (trace (I after)) = words (trace (I before)) ++ new /\
    Forall P new.

(** Chip selects a call leaves asserted: none when it returns, one when a
    transfer raised. *)
Definition opened (o : outcome) : Z :=
  match o with
  | Done => 0
  | TransportError => 1
  end.

(** C1 as the spec words it: the call adds five words to the bus, each of
    them a 16-bit word. *)
Definition emits_five_16_bit_words
  (freq : Q) (register : Z) (phase : option Z) (self : AD9833) : Prop :=
  exists w1 w2 w3 w4 w5 : Z,
    words (trace (I (fst (set_frequency freq register phase self))))
    = words (trace (I self)) ++ [w1; w2; w3; w4; w5] /\
    Forall word16 [w1; w2; w3; w4; w5].

(** C5 as the spec words it, on line 60 as Python evaluates it: the tuning
    word, cut to 28 bits, is [round(f * 2^28 / c)] cut to 28 bits. *)
Definition tuning_word_is_rounded (freq : Q) : Prop :=
  exists n : Z,
    line_60 freq = Some n /\
    n mod 2 ^ 28 = py_round (freq * 268435456 / 25000000)%Q mod 2 ^ 28.

Example init_words :
  words (trace (I (fst (init (healthy []))))) = [0x100; 0x2000].
Proof. reflexivity. Qed.

Example freq_setting_1000 : freq_setting 1000 = 10737.
Proof. reflexivity. Qed.

(** ** Bit-level facts *)

Module Bits.

Lemma mask14 (x : Z) : Z.land x 0x3FFF = x mod 2 ^ 14.
Proof. change 0x3FFF with (Z.ones 14). apply Z.land_ones. lia. Qed.

Lemma mask16 (x : Z) : Z.land x 0xFFFF = x mod 2 ^ 16.
Proof. change 0xFFFF with (Z.ones 16). apply Z.land_ones. lia. Qed.

Lemma mask12 (x : Z) : Z.land x 0x0FFF = x mod 2 ^ 12.
Proof. change 0x0FFF with (Z.ones 12). apply Z.land_ones. lia. Qed.

Lemma testbit_small (p n k : Z) :
  0 <= n -> 0 <= p < 2 ^ n -> n <= k -> Z.testbit p k = false.
Proof.
  intros Hn Hp Hk.
  rewrite <- (Z.mod_small p (2 ^ n)) by lia.
  apply Z.mod_pow2_bits_high. lia.
Qed.

(** OR-ing a power of two onto a smaller payload adds it. *)
Lemma lor_pow2_small (n p : Z) :
  0 <= n -> 0 <= p < 2 ^ n -> Z.lor (2 ^ n) p = 2 ^ n + p.
Proof.
  intros Hn Hp.
  assert (Hd : Z.land (2 ^ n) p = 0).
  { apply Z.bits_inj'. intros k Hk.
    rewrite Z.land_spec, Z.bits_0, Z.pow2_bits_eqb by lia.
    destruct (Z.eqb_spec n k) as [->|]; [|reflexivity].
    rewrite (testbit_small p k k); auto; lia. }
  rewrite <- Z.lxor_lor by exact Hd.
  symmetry. apply Z.add_nocarry_lxor. exact Hd.
Qed.

Lemma regsel_cases (register : Z) :
  regsel_of register = 2 ^ 14 /\ register = 0
  \/ regsel_of register = 2 ^ 15 /\ register <> 0.
Proof.
  unfold regsel_of, truthy.
  destruct (Z.eqb_spec register 0); cbn; [left | right]; auto.
Qed.

(** A frequency-register word is the select prefix plus a 14-bit payload. *)
Lemma freq_word_value (register x : Z) :
  Z.land (Z.lor (regsel_of register) (Z.land x 0x3FFF)) 0xFFFF
  = regsel_of register + x mod 2 ^ 14.
Proof.
  rewrite mask16, mask14.
  pose proof (Z.mod_pos_bound x (2 ^ 14) ltac:(lia)) as Hp.
  destruct (regsel_cases register) as [[-> _]|[-> _]].
  - rewrite lor_pow2_small by lia. apply Z.mod_small. lia.
  - assert (Z.lor (2 ^ 15) (x mod 2 ^ 14) = 2 ^ 15 + x mod 2 ^ 14) as ->.
    { apply lor_pow2_small; lia. }
    apply Z.mod_small. lia.
Qed.

(** Splitting at bit 14 and gluing back keeps the low 28 bits. *)
Lemma split_glue (w : Z) :
  Z.lor (Z.shiftl (Z.land (Z.shiftr w 14) 0x3FFF) 14) (Z.land w 0x3FFF)
  = w mod 2 ^ 28.
Proof.
  change 0x3FFF with (Z.ones 14).
  rewrite <- (Z.land_ones w 28) by lia.
  apply Z.bits_inj'. intros k Hk.
  rewrite Z.lor_spec, !Z.land_spec, Z.shiftl_spec by lia.
  rewrite !Z.testbit_ones_nonneg by lia.
  destruct (Z.ltb_spec k 14) as [Hlt|Hge].
  - rewrite (Z.testbit_neg_r _ (k - 14)) by lia.
    replace (k <? 28) with true by (symmetry; apply Z.ltb_lt; lia).
    cbn. reflexivity.
  - rewrite Z.land_spec, Z.shiftr_spec, Z.testbit_ones_nonneg by lia.
    replace (k - 14 + 14) with k by lia.
    rewrite andb_false_r, orb_false_r.
    f_equal.
    destruct (Z.ltb_spec (k - 14) 14), (Z.ltb_spec k 28); auto; lia.
Qed.

Lemma split_glue_arith (w : Z) :
  (w / 2 ^ 14) mod 2 ^ 14 * 2 ^ 14 + w mod 2 ^ 14 = w mod 2 ^ 28.
Proof.
  change (2 ^ 28) with (2 ^ 14 * 2 ^ 14).
  rewrite Z.rem_mul_r by lia. lia.
Qed.


Lemma freq_word_range (register x : Z) :
  0 <= Z.land (Z.lor (regsel_of register) (Z.land x 0x3FFF)) 0xFFFF < 2 ^ 16.
Proof.
  rewrite freq_word_value.
  pose proof (Z.mod_pos_bound x (2 ^ 14) ltac:(lia)) as Hp.
  destruct (regsel_cases register) as [[-> _]|[-> _]]; lia.
Qed.

(** The halves of a word cut to 28 bits are the masked halves of the word. *)
Lemma halves_of_truncated (w : Z) :
  (w mod 2 ^ 28) mod 2 ^ 14 = w mod 2 ^ 14 /\
  (w mod 2 ^ 28) / 2 ^ 14 = (w / 2 ^ 14) mod 2 ^ 14.
Proof.
  rewrite <- (split_glue_arith w).
  pose proof (Z.mod_pos_bound w (2 ^ 14) ltac:(lia)) as Hl.
  set (l := w mod 2 ^ 14) in *.
  set (h := (w / 2 ^ 14) mod 2 ^ 14).
  split.
  - rewrite Z.add_comm, Z_mod_plus_full. apply Z.mod_small. lia.
  - rewrite Z.add_comm, Z_div_plus_full by lia.
    rewrite Z.div_small by lia. lia.
Qed.

(** OR-ing two 16-bit words gives a 16-bit word. *)
Lemma lor_word16 (a b : Z) : word16 a -> word16 b -> word16 (Z.lor a b).
Proof.
  unfold word16. intros Ha Hb.
  assert (E : Z.lor a b mod 2 ^ 16 = Z.lor a b).
  { rewrite <- Z.land_ones, Z.land_lor_distr_l, !Z.land_ones by lia.
    rewrite !Z.mod_small by lia. reflexivity. }
  rewrite <- E. apply Z.mod_pos_bound. lia.
Qed.

End Bits.

(** ** Running writes on the bus *)

Module Run.

Lemma words_app (a b : list spi_op) : words (a ++ b) = words a ++ words b.
Proof.
  induction a as [|op a IH]; cbn; [reflexivity|].
  destruct op; cbn; rewrite IH; reflexivity.
Qed.

Lemma words_frames (cs : string) (ws : list Z) :
  words (flat_map (frame cs) ws) = ws.
Proof. induction ws as [|w ws IH]; cbn; [|rewrite IH]; reflexivity. Qed.

Lemma seq_skip_r (m : method) (self : AD9833) : (m ;; skip) self = m self.
Proof. unfold seq, skip. destruct (m self) as [s [|]]; reflexivity. Qed.

Lemma clear_for_head (n : nat) (s : SPI) :
  clear_for (S n) s -> faults s (attempts s) = false.
Proof. intros H. rewrite <- (Nat.add_0_r (attempts s)). apply H. lia. Qed.

Lemma clear_for_tail
  (n : nat) (t : list spi_op) (a : nat) (f : nat -> bool) (t' : list spi_op) :
  clear_for (S n) (mkSPI t a f) -> clear_for n (mkSPI t' (S a) f).
Proof.
  intros H k Hk. cbn in *.
  replace (S (a + k))%nat with (a + S k)%nat by lia. apply H. lia.
Qed.

Lemma write_done (con : Z) (self : AD9833) :
  faults (I self) (attempts (I self)) = false ->
  write con self =
  (mkAD9833 (CS self)
     (mkSPI (trace (I self) ++ frame (CS self) con)
            (S (attempts (I self))) (faults (I self)))
     (waveform_mode self) (active_channel self) (frequency self), Done).
Proof.
  intros H. unfold write, spi_send16, spi_start, spi_stop, spi_log. cbn.
  rewrite H. cbn. rewrite <- !app_assoc. reflexivity.
Qed.

Lemma write_raise (con : Z) (self : AD9833) :
  faults (I self) (attempts (I self)) = true ->
  write con self =
  (mkAD9833 (CS self)
     (mkSPI (trace (I self) ++ [Start (CS self)])
            (S (attempts (I self))) (faults (I self)))
     (waveform_mode self) (active_channel self) (frequency self),
   TransportError).
Proof.
  intros H. unfold write, spi_send16, spi_start, spi_log. cbn.
  rewrite H. reflexivity.
Qed.

(** On a bus whose next transfers succeed, a run delivers every word,
    framed, and touches no attribute. *)
Lemma write_all_done (ws : list Z) (self : AD9833) :
  clear_for (List.length ws) (I self) ->
  write_all ws self =
  (mkAD9833 (CS self)
     (mkSPI (trace (I self) ++ flat_map (frame (CS self)) ws)
            (attempts (I self) + List.length ws) (faults (I self)))
     (waveform_mode self) (active_channel self) (frequency self), Done).
Proof.
  revert self. induction ws as [|w ws IH]; intros self Hc.
  - destruct self as [cs [t a f] m ch fr]. cbn.
    rewrite app_nil_r, Nat.add_0_r. reflexivity.
  - destruct self as [cs [t a f] m ch fr].
    cbn [write_all]. unfold seq.
    rewrite write_done by (apply (clear_for_head _ _ Hc)).
    cbn [CS I trace attempts faults waveform_mode active_channel frequency].
    rewrite IH by (cbn; eapply clear_for_tail; exact Hc).
    cbn [CS I trace attempts faults waveform_mode active_channel frequency].
    rewrite <- app_assoc.
    cbn [flat_map List.length].
    replace (S a + List.length ws)%nat with (a + S (List.length ws))%nat by lia.
    reflexivity.
Qed.

(** On any bus, a run delivers a prefix of its words, stops at the first
    transfer that raises, and touches no attribute. *)
Lemma write_all_prefix (ws : list Z) (self : AD9833) :
  exists k : nat,
    (k <= List.length ws)%nat /\
    words (trace (I (fst (write_all ws self))))
      = words (trace (I self)) ++ firstn k ws /\
    (snd (write_all ws self) = Done -> k = List.length ws) /\
    (snd (write_all ws self) = TransportError ->
       (k < List.length ws)%nat /\
       faults (I self) (attempts (I self) + k) = true) /\
    CS (fst (write_all ws self)) = CS self /\
    waveform_mode (fst (write_all ws self)) = waveform_mode self /\
    active_channel (fst (write_all ws self)) = active_channel self /\
    frequency (fst (write_all ws self)) = frequency self.
Proof.
  revert self. induction ws as [|w ws IH]; intros self.
  - exists 0%nat. cbn. rewrite app_nil_r.
    repeat split; auto; discriminate.
  - cbn [write_all]. unfold seq.
    destruct (faults (I self) (attempts (I self))) eqn:Hf.
    + rewrite write_raise by exact Hf. exists 0%nat. cbn.
      rewrite words_app, app_nil_r. cbn. rewrite app_nil_r, Nat.add_0_r.
      repeat split; auto; try lia; discriminate.
    + rewrite write_done by exact Hf.
      match goal with |- context [write_all ws ?s] => destruct (IH s) as
          (k & Hk & Hw & Hd & He & H1 & H2 & H3 & H4) end.
      exists (S k).
      cbn [CS I trace attempts faults waveform_mode active_channel frequency] in *.
      rewrite Hw, words_app. cbn [words frame app firstn List.length].
      rewrite <- app_assoc. cbn [app].
      split; [lia|]. split; [reflexivity|].
      split; [intros E; specialize (Hd E); lia|].
      split; [|auto].
      intros E. destruct (He E) as [Hlt Hx]. split; [lia|].
      replace (attempts (I self) + S k)%nat
        with (S (attempts (I self) + k))%nat by lia. exact Hx.
Qed.

(** A run only appends to the trace, and a non-empty run always opens a
    transfer. *)
Lemma write_all_extends (ws : list Z) (self : AD9833) :
  exists rest : list spi_op,
    trace (I (fst (write_all ws self))) = trace (I self) ++ rest.
Proof.
  revert self. induction ws as [|w ws IH]; intros self.
  - exists []. cbn. rewrite app_nil_r. reflexivity.
  - cbn [write_all]. unfold seq.
    destruct (faults (I self) (attempts (I self))) eqn:Hf.
    + rewrite write_raise by exact Hf. eexists. reflexivity.
    + rewrite write_done by exact Hf.
      match goal with |- context [write_all ws ?s] =>
        destruct (IH s) as [rest Hr] end.
      rewrite Hr. cbn [I trace]. rewrite <- app_assoc. eexists. reflexivity.
Qed.

Lemma write_all_starts (w : Z) (ws : list Z) (self : AD9833) :
  exists rest : list spi_op,
    trace (I (fst (write_all (w :: ws) self)))
    = trace (I self) ++ Start (CS self) :: rest.
Proof.
  cbn [write_all]. unfold seq.
  destruct (faults (I self) (attempts (I self))) eqn:Hf.
  - rewrite write_raise by exact Hf. eexists. reflexivity.
  - rewrite write_done by exact Hf.
    match goal with |- context [write_all ws ?s] =>
      destruct (write_all_extends ws s) as [rest Hr] end.
    rewrite Hr. cbn [I trace frame]. rewrite <- app_assoc. cbn [app].
    eexists. reflexivity.
Qed.

(** The bodies of the methods as attribute updates followed by a run. *)
Lemma set_frequency_unfold freq register phase (self : AD9833) :
  set_frequency freq register phase self =
  write_all (five_words (waveform_mode self) freq register phase)
    (mkAD9833 (CS self) (I self) (waveform_mode self) register freq).
Proof.
  unfold set_frequency, five_words. cbn [write_all].
  unfold seq at 1 2, set_active_channel_attr, set_frequency_attr.
  cbn [CS I waveform_mode active_channel frequency].
  unfold seq. 
  repeat match goal with
         | |- context [write ?w ?s] => destruct (write w s) as [? [|]]; try reflexivity
         end.
Qed.

Lemma set_frequency_run freq register phase (self : AD9833) :
  clear_for 5 (I self) ->
  set_frequency freq register phase self =
  (mkAD9833 (CS self)
     (mkSPI (trace (I self)
               ++ flat_map (frame (CS self))
                    (five_words (waveform_mode self) freq register phase))
            (attempts (I self) + 5) (faults (I self)))
     (waveform_mode self) register freq, Done).
Proof.
  intros Hc. rewrite set_frequency_unfold.
  rewrite write_all_done by exact Hc. reflexivity.
Qed.

Lemma set_waveform_mode_unfold mode (self : AD9833) :
  set_waveform_mode mode self =
  write_all
    [if truthy (active_channel self)
     then Z.lor mode (Z.shiftl 1 DDS_FSELECT) else mode]
    (mkAD9833 (CS self) (I self) mode (active_channel self) (frequency self)).
Proof.
  unfold set_waveform_mode. cbn [write_all].
  unfold seq at 1, set_waveform_mode_attr.
  cbn [CS I waveform_mode active_channel frequency].
  rewrite seq_skip_r. reflexivity.
Qed.

Lemma write_keeps_mode (con : Z) (self : AD9833) :
  waveform_mode (fst (write con self)) = waveform_mode self.
Proof.
  unfold write. destruct (spi_send16 _ _) as [s [|]]; reflexivity.
Qed.

Lemma init_unfold (bus : SPI) :
  init bus =
  write_all [Z.shiftl 1 DDS_RESET; Z.lor (Z.shiftl 1 DDS_B28) DDS_SINE]
    (mkAD9833 "CS1" (spi_set_parameters 2 2 1 1 0 bus) DDS_SINE 0 1000).
Proof.
  unfold init. cbn [write_all]. unfold seq at 1 2.
  match goal with |- context [write ?w ?s] =>
    pose proof (write_keeps_mode w s) as Hm; destruct (write w s) as [s' [|]]
  end; [|reflexivity].
  cbn [fst waveform_mode] in Hm. rewrite Hm, seq_skip_r. reflexivity.
Qed.

End Run.

(** ** Rounding *)

Module Round.

Lemma floor_bounds (x : Q) :
  (inject_Z (Qfloor x) <= x /\ x < inject_Z (Qfloor x) + 1)%Q.
Proof.
  split; [apply Qfloor_le|].
  pose proof (Qlt_floor x) as H. rewrite inject_Z_plus in H. exact H.
Qed.

Lemma inject_Z_succ (n : Z) : (inject_Z (n + 1) == inject_Z n + 1)%Q.
Proof. rewrite inject_Z_plus. reflexivity. Qed.

(** [py_round x] is an integer nearest to [x]. *)
Lemma py_round_nearest (x : Q) :
  (Qabs (inject_Z (py_round x) - x) <= 1 # 2)%Q.
Proof.
  unfold py_round. destruct (floor_bounds x) as [Hl Hu].
  set (n := Qfloor x) in *.
  apply Qabs_Qle_condition.
  destruct (Qcompare (x - inject_Z n) (1 # 2)) eqn:E.
  - apply Qeq_alt in E.
    destruct (Z.even n); [|rewrite inject_Z_succ]; split; lra.
  - apply Qlt_alt in E. split; lra.
  - apply Qgt_alt in E. rewrite inject_Z_succ. split; lra.
Qed.

(** On a tie the even neighbour is taken. *)
Lemma py_round_tie_even (x : Q) :
  (Qabs (inject_Z (py_round x) - x) == 1 # 2)%Q -> Z.even (py_round x) = true.
Proof.
  unfold py_round. destruct (floor_bounds x) as [Hl Hu].
  set (n := Qfloor x) in *.
  destruct (Qcompare (x - inject_Z n) (1 # 2)) eqn:E.
  - destruct (Z.even n) eqn:En; [auto|]. intros _.
    rewrite Z.even_add, En. reflexivity.
  - apply Qlt_alt in E. intros H. exfalso.
    rewrite Qabs_neg in H by lra. lra.
  - apply Qgt_alt in E. intros H. exfalso.
    rewrite inject_Z_succ in H.
    rewrite Qabs_pos in H by lra. lra.
Qed.

End Round.

(** ** More on rounding and the tuning word *)

Module Tuning.

Lemma floor_unique (x : Q) (n : Z) :
  (inject_Z n <= x)%Q -> (x < inject_Z n + 1)%Q -> Qfloor x = n.
Proof.
  intros Hl Hu. destruct (Round.floor_bounds x) as [Fl Fu].
  assert (H1 : (inject_Z n < inject_Z (Qfloor x + 1))%Q).
  { rewrite Round.inject_Z_succ. lra. }
  assert (H2 : (inject_Z (Qfloor x) < inject_Z (n + 1))%Q).
  { rewrite Round.inject_Z_succ. lra. }
  rewrite <- Zlt_Qlt in H1, H2. lia.
Qed.

Lemma floor_shift (x : Q) (k : Z) : Qfloor (x + inject_Z k) = Qfloor x + k.
Proof.
  destruct (Round.floor_bounds x) as [Fl Fu].
  apply floor_unique; rewrite inject_Z_plus; lra.
Qed.

Lemma py_round_comp (x y : Q) : (x == y)%Q -> py_round x = py_round y.
Proof.
  intros E. unfold py_round.
  assert (Hf : Qfloor x = Qfloor y) by (apply Qfloor_comp; exact E).
  rewrite Hf.
  assert (Hc : Qcompare (x - inject_Z (Qfloor y)) (1 # 2)
               = Qcompare (y - inject_Z (Qfloor y)) (1 # 2)).
  { apply Qcompare_comp; [|reflexivity]. rewrite E. reflexivity. }
  rewrite Hc. reflexivity.
Qed.

(** Shifting by an even integer commutes with rounding. *)
Lemma py_round_shift_even (x : Q) (k : Z) :
  Z.even k = true -> py_round (x + inject_Z k) = py_round x + k.
Proof.
  intros Hk. unfold py_round. rewrite floor_shift.
  assert (E : (x + inject_Z k - inject_Z (Qfloor x + k)
               == x - inject_Z (Qfloor x))%Q).
  { rewrite inject_Z_plus. ring. }
  assert (Hc : Qcompare (x + inject_Z k - inject_Z (Qfloor x + k)) (1 # 2)
               = Qcompare (x - inject_Z (Qfloor x)) (1 # 2)).
  { apply Qcompare_comp; [exact E | reflexivity]. }
  rewrite Hc, Z.even_add, Hk. clear Hc E.
  destruct (Qcompare _ _); [|lia|lia].
  destruct (Z.even (Qfloor x)); cbn; lia.
Qed.

Lemma py_round_mono (x y : Q) : (x <= y)%Q -> py_round x <= py_round y.
Proof.
  intros H. pose proof (Qfloor_resp_le _ _ H) as Hf.
  destruct (Round.floor_bounds x) as [Xl Xu].
  destruct (Round.floor_bounds y) as [Yl Yu].
  unfold py_round.
  destruct (Z.eq_dec (Qfloor x) (Qfloor y)) as [E|N].
  - rewrite <- E in *.
    destruct (Qcompare_spec (x - inject_Z (Qfloor x)) (1 # 2));
      destruct (Qcompare_spec (y - inject_Z (Qfloor x)) (1 # 2));
      destruct (Z.even (Qfloor x)); try lia; exfalso; lra.
  - destruct (Qcompare (x - _) _); destruct (Qcompare (y - _) _);
      destruct (Z.even (Qfloor x)); destruct (Z.even (Qfloor y)); lia.
Qed.

(** The quotient of line 60 is linear in the frequency. *)
Lemma scaled_add_clock (freq : Q) :
  ((freq + DDS_CLOCK) * inject_Z DDS_MAX_FREQ / DDS_CLOCK
   == freq * inject_Z DDS_MAX_FREQ / DDS_CLOCK + inject_Z (2 ^ 28))%Q.
Proof.
  unfold DDS_CLOCK, DDS_MAX_FREQ.
  change (inject_Z 268435456) with 268435456%Q.
  change (inject_Z (2 ^ 28)) with 268435456%Q.
  field.
Qed.

Lemma scaled_mono (f1 f2 : Q) :
  (f1 <= f2)%Q ->
  (f1 * inject_Z DDS_MAX_FREQ / DDS_CLOCK
   <= f2 * inject_Z DDS_MAX_FREQ / DDS_CLOCK)%Q.
Proof.
  intros H. unfold Qdiv.
  apply Qmult_le_compat_r; [apply Qmult_le_compat_r|]; [exact H| |];
    discriminate.
Qed.

Lemma freq_setting_add_clock (freq : Q) :
  freq_setting (freq + DDS_CLOCK) = freq_setting freq + 2 ^ 28.
Proof.
  unfold freq_setting, freq_setting_at.
  rewrite (py_round_comp _ _ (scaled_add_clock freq)).
  apply py_round_shift_even. reflexivity.
Qed.

Lemma scaled_eq (freq : Q) :
  (freq * inject_Z DDS_MAX_FREQ / DDS_CLOCK
   == freq * (268435456 # 25000000))%Q.
Proof.
  unfold DDS_CLOCK, DDS_MAX_FREQ.
  change (inject_Z 268435456) with 268435456%Q.
  change (268435456 # 25000000)%Q with (268435456 / 25000000)%Q.
  field.
Qed.

Lemma half_step_eq : (25000000 / 536870912 == 25000000 # 536870912)%Q.
Proof. reflexivity. Qed.

(** Below a half-integer bound rounding stays at or under the integer. *)
Lemma py_round_below_half (x : Q) (n : Z) :
  (x < inject_Z n + (1 # 2))%Q -> py_round x <= n.
Proof.
  intros H. destruct (Round.floor_bounds x) as [Fl Fu].
  assert (Hn : Qfloor x <= n).
  { assert (Hq : (inject_Z (Qfloor x) < inject_Z (n + 1))%Q).
    { rewrite Round.inject_Z_succ. lra. }
    rewrite <- Zlt_Qlt in Hq. lia. }
  unfold py_round.
  destruct (Z.eq_dec (Qfloor x) n) as [E|N].
  - rewrite E in *.
    destruct (Qcompare_spec (x - inject_Z n) (1 # 2));
      destruct (Z.even n); try lia; exfalso; lra.
  - destruct (Qcompare _ _); destruct (Z.even (Qfloor x)); lia.
Qed.

Lemma freq_setting_mono (f1 f2 : Q) :
  (f1 <= f2)%Q -> freq_setting f1 <= freq_setting f2.
Proof.
  intros H. unfold freq_setting, freq_setting_at.
  apply py_round_mono, scaled_mono, H.
Qed.

End Tuning.

(** ** Binary64 against exact rounding *)

Module Binary64.

Local Open Scope Q_scope.

Lemma two_neq_0 : ~ 2 == 0.
Proof. discriminate. Qed.

Lemma pow2_pos (s : Z) : 0 < 2 ^ s.
Proof. apply Qpower_0_lt. reflexivity. Qed.

Lemma pow2_add (a b : Z) : 2 ^ (a + b) == 2 ^ a * 2 ^ b.
Proof. apply Qpower_plus, two_neq_0. Qed.

Lemma pow2_le (a b : Z) : (a <= b)%Z -> 2 ^ a <= 2 ^ b.
Proof. intros H. apply Qpower_le_compat_l; [exact H | discriminate]. Qed.

Lemma pow2_lt (a b : Z) : (a < b)%Z -> 2 ^ a < 2 ^ b.
Proof. intros H. apply Qpower_lt_compat_l; [exact H | reflexivity]. Qed.

Lemma pow2_lt_inv (a b : Z) : 2 ^ a < 2 ^ b -> (a < b)%Z.
Proof. intros H. apply (Qpower_lt_compat_l_inv 2); [exact H | reflexivity]. Qed.

Lemma pow2_Z (a : Z) : (0 <= a)%Z -> 2 ^ a == inject_Z (2 ^ a).
Proof. intros H. symmetry. apply (Zpower_Qpower 2 a H). Qed.

Lemma Qabs_num_den (q : Q) :
  Qabs q * inject_Z (Zpos (Qden q)) == inject_Z (Z.abs (Qnum q)).
Proof.
  destruct q as [n d]. cbn [Qabs Qnum Qden].
  rewrite (Qmake_Qdiv (Z.abs n) d). field. discriminate.
Qed.

Lemma num_nonzero (q : Q) : ~ q == 0 -> (0 < Z.abs (Qnum q))%Z.
Proof.
  intros H. destruct q as [n d]. cbn.
  destruct (Z.eq_dec n 0) as [->|Hn]; [exfalso; apply H; reflexivity | lia].
Qed.

(** [ilog2 q] is an exponent at or under the magnitude of [q]. *)
Lemma ilog2_le (q : Q) : ~ q == 0 -> 2 ^ ilog2 q <= Qabs q.
Proof.
  intros Hq. unfold ilog2.
  set (a := Z.log2 (Z.abs (Qnum q))). set (b := Z.log2 (Zpos (Qden q))).
  destruct (Qle_bool (2 ^ (a - b)) (Qabs q)) eqn:E.
  - apply Qle_bool_iff. exact E.
  - clear E.
    pose proof (num_nonzero q Hq) as Hn.
    destruct (Z.log2_spec _ Hn) as [Ha _]. fold a in Ha.
    destruct (Z.log2_spec (Zpos (Qden q)) ltac:(lia)) as [_ Hb]. fold b in Hb.
    pose proof (Z.log2_nonneg (Z.abs (Qnum q))) as Ha0. fold a in Ha0.
    pose proof (Z.log2_nonneg (Zpos (Qden q))) as Hb0. fold b in Hb0.
    apply (Qmult_le_r _ _ (2 ^ (b + 1))); [apply pow2_pos|].
    rewrite <- pow2_add. replace (a - b - 1 + (b + 1))%Z with a by lia.
    rewrite (pow2_Z a Ha0), (pow2_Z (b + 1)) by lia.
    apply Qle_trans with (inject_Z (Z.abs (Qnum q))).
    + rewrite <- Zle_Qle. exact Ha.
    + rewrite <- Qabs_num_den.
      rewrite !(Qmult_comm (Qabs q)).
      apply Qmult_le_compat_r; [|apply Qabs_nonneg].
      rewrite <- Zle_Qle. unfold Z.succ in Hb. lia.
Qed.

(** ... and the next exponent is above it: [ilog2 q = floor (log2 |q|)]. *)
Lemma ilog2_lt (q : Q) : ~ q == 0 -> Qabs q < 2 ^ (ilog2 q + 1).
Proof.
  intros Hq. unfold ilog2.
  set (a := Z.log2 (Z.abs (Qnum q))). set (b := Z.log2 (Zpos (Qden q))).
  destruct (Qle_bool (2 ^ (a - b)) (Qabs q)) eqn:E.
  - clear E.
    pose proof (num_nonzero q Hq) as Hn.
    destruct (Z.log2_spec _ Hn) as [_ Ha]. fold a in Ha.
    destruct (Z.log2_spec (Zpos (Qden q)) ltac:(lia)) as [Hb _]. fold b in Hb.
    pose proof (Z.log2_nonneg (Z.abs (Qnum q))) as Ha0. fold a in Ha0.
    pose proof (Z.log2_nonneg (Zpos (Qden q))) as Hb0. fold b in Hb0.
    apply (Qmult_lt_r _ _ (2 ^ b)); [apply pow2_pos|].
    rewrite <- pow2_add. replace (a - b + 1 + b)%Z with (a + 1)%Z by lia.
    rewrite (pow2_Z (a + 1)), (pow2_Z b) by lia.
    apply Qle_lt_trans with (inject_Z (Z.abs (Qnum q))).
    + rewrite <- Qabs_num_den.
      rewrite !(Qmult_comm (Qabs q)).
      apply Qmult_le_compat_r; [|apply Qabs_nonneg].
      rewrite <- Zle_Qle. exact Hb.
    + rewrite <- Zlt_Qlt. unfold Z.succ in Ha. exact Ha.
  - replace (a - b - 1 + 1)%Z with (a - b)%Z by lia.
    apply Qnot_le_lt. intros H. apply Qle_bool_iff in H.
    rewrite H in E. discriminate E.
Qed.

Lemma py_round_Z (k : Z) : py_round (inject_Z k) = k.
Proof.
  unfold py_round. rewrite Qfloor_Z.
  destruct (Qcompare_spec (inject_Z k - inject_Z k) (1 # 2)) as [E|E|E];
    [exfalso; lra | reflexivity | exfalso; lra].
Qed.

(** Two numbers that round differently have a tie point between them. *)
Lemma py_round_apart (x y : Q) :
  py_round x <> py_round y ->
  exists n : Z,
    (x <= inject_Z n + (1 # 2) /\ inject_Z n + (1 # 2) <= y) \/
    (y <= inject_Z n + (1 # 2) /\ inject_Z n + (1 # 2) <= x).
Proof.
  intros H.
  pose proof (Round.py_round_nearest x) as Hx.
  pose proof (Round.py_round_nearest y) as Hy.
  apply Qabs_Qle_condition in Hx. apply Qabs_Qle_condition in Hy.
  destruct (Z.lt_total (py_round x) (py_round y)) as [L|[E|G]];
    [|contradiction|].
  - exists (py_round x). left.
    assert (Hq : inject_Z (py_round x) + 1 <= inject_Z (py_round y)).
    { rewrite <- Round.inject_Z_succ, <- Zle_Qle. lia. }
    split; lra.
  - exists (py_round y). right.
    assert (Hq : inject_Z (py_round y) + 1 <= inject_Z (py_round x)).
    { rewrite <- Round.inject_Z_succ, <- Zle_Qle. lia. }
    split; lra.
Qed.

(** What [b64_round] returns on a non-zero number: the multiple of the
    grid step nearest to it, at most half a step away. *)
Lemma b64_round_some (q r : Q) :
  ~ q == 0 -> b64_round q = Some r ->
  r == inject_Z (py_round (q / 2 ^ (Z.max (ilog2 q) (-1022) - 52)))
       * 2 ^ (Z.max (ilog2 q) (-1022) - 52) /\
  Qabs (r - q) <= 2 ^ (Z.max (ilog2 q) (-1022) - 52) * (1 # 2).
Proof.
  intros Hq. unfold b64_round.
  destruct (Qeq_bool q 0) eqn:E0;
    [apply Qeq_bool_iff in E0; contradiction|].
  set (s := (Z.max (ilog2 q) (-1022) - 52)%Z).
  destruct (Qle_bool _ _); [discriminate|].
  intros [= <-]. split; [reflexivity|].
  pose proof (pow2_pos s) as Hu. set (u := 2 ^ s) in *.
  pose proof (Round.py_round_nearest (q / u)) as Hn.
  set (k := inject_Z (py_round (q / u))) in *.
  apply Qabs_Qle_condition in Hn. apply Qabs_Qle_condition.
  assert (Eq : q == q / u * u) by (field; lra).
  destruct Hn as [Hl Hh].
  assert (H1 : (k - q / u) * u <= (1 # 2) * u)
    by (apply Qmult_le_compat_r; lra).
  assert (H2 : (- (1 # 2)) * u <= (k - q / u) * u)
    by (apply Qmult_le_compat_r; lra).
  assert (E2 : k * u - q == (k - q / u) * u) by (field; lra).
  rewrite E2. split; lra.
Qed.

(** When the magnitude leaves room, [b64_round] does return a double. *)
Lemma b64_round_defined (q : Q) :
  ~ q == 0 -> Qabs q < 2 ^ 1000 -> exists r, b64_round q = Some r.
Proof.
  intros Hq Hb. unfold b64_round.
  destruct (Qeq_bool q 0) eqn:E0;
    [apply Qeq_bool_iff in E0; contradiction|].
  set (s := (Z.max (ilog2 q) (-1022) - 52)%Z).
  destruct (Qle_bool (2 ^ 1024) _) eqn:E; [|eexists; reflexivity].
  exfalso. apply Qle_bool_iff in E.
  pose proof (ilog2_le q Hq) as Hil.
  assert (Hs : (s < 1000)%Z).
  { assert (L : (ilog2 q < 1000)%Z).
    { apply pow2_lt_inv. apply Qle_lt_trans with (Qabs q); assumption. }
    unfold s. lia. }
  pose proof (pow2_pos s) as Hu.
  pose proof (pow2_lt s 1000 Hs) as Hu2.
  pose proof (pow2_lt 1001 1024 ltac:(lia)) as Hbig.
  assert (E1001 : 2 ^ 1001 == 2 ^ 1000 + 2 ^ 1000).
  { change 1001%Z with (1000 + 1)%Z. rewrite pow2_add. change (2 ^ 1) with 2.
    generalize (2 ^ 1000). intros b. ring. }
  set (u := 2 ^ s) in *.
  pose proof (Round.py_round_nearest (q / u)) as Hn.
  set (k := inject_Z (py_round (q / u))) in *.
  apply Qabs_Qle_condition in Hn.
  assert (Eq : q == q / u * u) by (field; lra).
  destruct Hn as [Hl Hh].
  assert (H1 : (k - q / u) * u <= (1 # 2) * u)
    by (apply Qmult_le_compat_r; lra).
  assert (H2 : (- (1 # 2)) * u <= (k - q / u) * u)
    by (apply Qmult_le_compat_r; lra).
  assert (E2 : k * u == q + (k - q / u) * u) by (field; lra).
  assert (Hr : Qabs (k * u) <= Qabs q + u).
  { rewrite E2. eapply Qle_trans; [apply Qabs_triangle|].
    assert (Qabs ((k - q / u) * u) <= u); [|lra].
    apply Qabs_Qle_condition. split; lra. }
  set (big := 2 ^ 1024) in *. set (b := 2 ^ 1000) in *.
  set (b1 := 2 ^ 1001) in *. lra.
Qed.

Lemma abs_inject_lt (m : Z) (b : Z) :
  (0 <= b)%Z -> (Z.abs m < 2 ^ b)%Z -> Qabs (inject_Z m) < 2 ^ b.
Proof.
  intros Hb H. rewrite (pow2_Z b Hb).
  change (Qabs (inject_Z m)) with (inject_Z (Z.abs m)).
  rewrite <- Zlt_Qlt. exact H.
Qed.

(** The magnitude of a significand times a power of two. *)
Lemma abs_scaled_lt (q : Q) (m t : Z) :
  (Z.abs m < 2 ^ 53)%Z -> q == inject_Z m * 2 ^ t -> Qabs q < 2 ^ (t + 53).
Proof.
  intros Hm E. rewrite E, Qabs_Qmult.
  rewrite (Qabs_pos (2 ^ t)) by (apply Qlt_le_weak, pow2_pos).
  rewrite pow2_add, (Qmult_comm (2 ^ t)).
  apply Qmult_lt_compat_r; [apply pow2_pos|].
  apply abs_inject_lt; [lia | exact Hm].
Qed.

(** A number already on the grid of its exponent is returned as it is. *)
Lemma b64_round_exact (q : Q) (m t : Z) :
  (Z.abs m < 2 ^ 53)%Z -> (-1074 <= t)%Z ->
  q == inject_Z m * 2 ^ t -> Qabs q < 2 ^ 1000 ->
  exists r, b64_round q = Some r /\ r == q.
Proof.
  intros Hm Ht E Hb.
  destruct (Qeq_dec q 0) as [Z0|NZ].
  - exists q. split; [|reflexivity].
    unfold b64_round. apply Qeq_bool_iff in Z0. rewrite Z0. reflexivity.
  - destruct (b64_round_defined q NZ Hb) as [r Hr]. exists r.
    split; [exact Hr|].
    destruct (b64_round_some q r NZ Hr) as [Er _].
    set (s := (Z.max (ilog2 q) (-1022) - 52)%Z) in *.
    assert (Hs : (s <= t)%Z).
    { assert (L : (ilog2 q < t + 53)%Z).
      { apply pow2_lt_inv. apply Qle_lt_trans with (Qabs q).
        - apply ilog2_le, NZ.
        - apply (abs_scaled_lt q m t Hm E). }
      unfold s. lia. }
    assert (Eg : q / 2 ^ s == inject_Z (m * 2 ^ (t - s))).
    { rewrite E, inject_Z_mult, <- (pow2_Z (t - s)) by lia.
      replace t with (t - s + s)%Z at 1 by lia. rewrite pow2_add.
      field. pose proof (pow2_pos s). lra. }
    rewrite (Tuning.py_round_comp _ _ Eg), py_round_Z in Er.
    rewrite Er, E, inject_Z_mult, <- (pow2_Z (t - s)) by lia.
    rewrite <- Qmult_assoc, <- pow2_add.
    replace (t - s + s)%Z with t by lia. reflexivity.
Qed.

(** The heart of the matter.  [x] is the exact quotient of line 60 for a
    double [m * 2^e]; below 2^34 the half step of the doubles around [x] is
    smaller than the distance from [x] to any tie point [n + 1/2] it is not
    on, so rounding [x] to a double first does not change what [round]
    returns. *)
Lemma quotient_round_agrees (x : Q) (m e : Z) (r : Q) :
  (Z.abs m < 2 ^ 53)%Z -> (-1074 <= e)%Z ->
  x * 25000000 == inject_Z m * 2 ^ (e + 28) ->
  Qabs x < 2 ^ 34 ->
  b64_round x = Some r -> py_round r = py_round x.
Proof.
  intros Hm He Hx Hb Hr.
  destruct (Qeq_dec x 0) as [Z0|NZ].
  { unfold b64_round in Hr. apply Qeq_bool_iff in Z0. rewrite Z0 in Hr.
    injection Hr as <-. reflexivity. }
  destruct (Z.eq_dec (py_round r) (py_round x)) as [|Hne]; [assumption|].
  exfalso.
  destruct (b64_round_some x r NZ Hr) as [_ Herr].
  set (s := (Z.max (ilog2 x) (-1022) - 52)%Z) in *.
  pose proof (ilog2_le x NZ) as Hil.
  (* the exponent of [x] *)
  assert (L34 : (ilog2 x < 34)%Z).
  { apply pow2_lt_inv. apply Qle_lt_trans with (Qabs x); assumption. }
  assert (Le : (ilog2 x < e + 57)%Z).
  { apply pow2_lt_inv. apply Qle_lt_trans with (Qabs x); [assumption|].
    pose proof (abs_scaled_lt _ m (e + 28) Hm Hx) as Hs.
    rewrite Qabs_Qmult in Hs. change (Qabs 25000000) with 25000000 in Hs.
    replace (e + 28 + 53)%Z with (e + 57 + 24)%Z in Hs by lia.
    rewrite pow2_add in Hs. change (2 ^ 24) with 16777216 in Hs.
    pose proof (pow2_pos (e + 57)) as Hp. pose proof (Qabs_nonneg x) as Ha.
    set (a := Qabs x) in *. set (p := 2 ^ (e + 57)) in *. lra. }
  set (k := Z.min (e + 29) 6).
  assert (Hsk : (s + 25 <= k)%Z) by (unfold s, k; lia).
  (* a tie point between [r] and [x] *)
  destruct (py_round_apart r x Hne) as [n Hn].
  set (h := inject_Z n + (1 # 2)) in *.
  assert (Hd : Qabs (x - h) <= 2 ^ s * (1 # 2)).
  { apply Qabs_Qle_condition in Herr. apply Qabs_Qle_condition.
    set (u := 2 ^ s) in *. destruct Hn as [[? ?]|[? ?]]; split; lra. }
  (* the distance from [x] to the tie point, as an integer times 2^k *)
  set (N := (m * 2 ^ (e + 29 - k)
             + - ((2 * n + 1) * 390625 * 2 ^ (6 - k)))%Z).
  assert (EN : (x - h) * 50000000 == inject_Z N * 2 ^ k).
  { unfold N. rewrite inject_Z_plus, inject_Z_opp, !inject_Z_mult.
    rewrite <- !pow2_Z by (unfold k; lia).
    rewrite inject_Z_plus, inject_Z_mult.
    change (inject_Z 2) with 2. change (inject_Z 1) with 1.
    change (inject_Z 390625) with 390625.
    assert (E1 : 2 ^ (e + 29 - k) * 2 ^ k == 2 * 2 ^ (e + 28)).
    { rewrite <- pow2_add. replace (e + 29 - k + k)%Z with (1 + (e + 28))%Z by lia.
      rewrite pow2_add. reflexivity. }
    assert (E2 : 2 ^ (6 - k) * 2 ^ k == 64).
    { rewrite <- pow2_add. replace (6 - k + k)%Z with 6%Z by lia. reflexivity. }
    unfold h.
    transitivity (2 * (x * 25000000) - (2 * inject_Z n + 1) * 25000000);
      [ring|].
    rewrite Hx.
    transitivity (inject_Z m * (2 ^ (e + 29 - k) * 2 ^ k)
                  - (2 * inject_Z n + 1) * 390625 * (2 ^ (6 - k) * 2 ^ k));
      [|ring].
    rewrite E1, E2. ring. }
  destruct (Z.eq_dec N 0) as [N0|NN].
  - (* [x] is the tie point itself: a double *)
    rewrite N0 in EN. change (inject_Z 0) with 0 in EN.
    rewrite Qmult_0_l in EN.
    assert (Exh : x == inject_Z (2 * n + 1) * 2 ^ (-1)).
    { rewrite inject_Z_plus, inject_Z_mult.
      change (inject_Z 2) with 2. change (inject_Z 1) with 1.
      change (2 ^ (-1)) with (1 # 2). unfold h in EN. lra. }
    assert (Hodd : (Z.abs (2 * n + 1) < 2 ^ 53)%Z).
    { assert (Hq : Qabs (inject_Z (2 * n + 1)) < 2 ^ 35).
      { assert (E2x : inject_Z (2 * n + 1) == 2 * x).
        { rewrite Exh. change (2 ^ (-1)) with (1 # 2). ring. }
        rewrite E2x, Qabs_Qmult. change (Qabs 2) with 2.
        change (2 ^ 35) with (2 * 2 ^ 34).
        set (a := Qabs x) in *. set (p := 2 ^ 34) in *. lra. }
      rewrite (pow2_Z 35) in Hq by lia.
      change (Qabs (inject_Z (2 * n + 1)))
        with (inject_Z (Z.abs (2 * n + 1))) in Hq.
      rewrite <- Zlt_Qlt in Hq. lia. }
    assert (Hbig : Qabs x < 2 ^ 1000).
    { apply Qlt_trans with (2 ^ 34); [exact Hb | apply pow2_lt; lia]. }
    destruct (b64_round_exact x (2 * n + 1) (-1) Hodd ltac:(lia) Exh Hbig)
      as (r' & Hr' & Er').
    rewrite Hr in Hr'. injection Hr' as <-.
    apply Hne. apply Tuning.py_round_comp. exact Er'.
  - (* otherwise it is at least 2^k / 50000000 away: more than half a step *)
    assert (H1 : 1 <= Qabs (inject_Z N)).
    { change (Qabs (inject_Z N)) with (inject_Z (Z.abs N)).
      change 1 with (inject_Z 1). rewrite <- Zle_Qle. lia. }
    assert (Hk : 2 ^ k <= Qabs ((x - h) * 50000000)).
    { rewrite EN, Qabs_Qmult.
      rewrite (Qabs_pos (2 ^ k)) by (apply Qlt_le_weak, pow2_pos).
      pose proof (pow2_pos k) as Hp.
      rewrite <- (Qmult_1_l (2 ^ k)) at 1.
      apply Qmult_le_compat_r; [exact H1 | lra]. }
    rewrite Qabs_Qmult in Hk. change (Qabs 50000000) with 50000000 in Hk.
    pose proof (pow2_le (s + 25) k Hsk) as Hp. rewrite pow2_add in Hp.
    change (2 ^ 25) with 33554432 in Hp.
    pose proof (pow2_pos s) as Hu.
    set (u := 2 ^ s) in *. set (d := Qabs (x - h)) in *.
    set (K := 2 ^ k) in *. lra.
Qed.

Lemma b64_round_total (q : Q) :
  Qabs q < 2 ^ 1000 -> exists r, b64_round q = Some r.
Proof.
  intros Hb. destruct (Qeq_dec q 0) as [Z0|NZ].
  - exists q. unfold b64_round. apply Qeq_bool_iff in Z0. rewrite Z0.
    reflexivity.
  - apply b64_round_defined; assumption.
Qed.

(** On the doubles below 1.6 GHz, line 60 in binary64 does not raise and
    returns the exactly rounded quotient. *)
Lemma line_60_agrees (freq : Q) :
  binary64 freq -> exact_range freq -> line_60 freq = Some (freq_setting freq).
Proof.
  intros (m & e & Hm & He & E) Hr. unfold exact_range in Hr.
  pose proof (Qabs_nonneg freq) as Ha.
  assert (E28 : inject_Z DDS_MAX_FREQ == 2 ^ 28) by reflexivity.
  assert (E1 : freq * inject_Z DDS_MAX_FREQ == inject_Z m * 2 ^ (e + 28)).
  { rewrite E, E28, pow2_add. ring. }
  assert (B1 : Qabs (freq * inject_Z DDS_MAX_FREQ) < 2 ^ 1000).
  { apply Qlt_trans with (2 ^ 59); [|apply pow2_lt; lia].
    rewrite Qabs_Qmult.
    change (Qabs (inject_Z DDS_MAX_FREQ)) with 268435456.
    change (2 ^ 59) with 576460752303423488.
    set (a := Qabs freq) in *. lra. }
  destruct (b64_round_exact _ m (e + 28) Hm ltac:(lia) E1 B1)
    as (x1 & Hx1 & Ex1).
  assert (E2 : x1 / DDS_CLOCK * 25000000 == inject_Z m * 2 ^ (e + 28)).
  { rewrite <- E1, Ex1. unfold DDS_CLOCK. field. }
  assert (Eq : x1 / DDS_CLOCK == freq * inject_Z DDS_MAX_FREQ / DDS_CLOCK).
  { rewrite Ex1. reflexivity. }
  assert (B2 : Qabs (x1 / DDS_CLOCK) < 2 ^ 34).
  { rewrite Eq, Tuning.scaled_eq, Qabs_Qmult.
    change (Qabs (268435456 # 25000000)) with (268435456 # 25000000).
    change (2 ^ 34) with 17179869184.
    set (a := Qabs freq) in *. lra. }
  assert (B3 : Qabs (x1 / DDS_CLOCK) < 2 ^ 1000).
  { apply Qlt_trans with (2 ^ 34); [exact B2 | apply pow2_lt; lia]. }
  destruct (b64_round_total _ B3) as [x2 Hx2].
  unfold line_60. rewrite Hx1, Hx2. f_equal.
  rewrite (quotient_round_agrees _ m e x2 Hm He E2 B2 Hx2).
  unfold freq_setting, freq_setting_at.
  apply Tuning.py_round_comp. exact Eq.
Qed.

(** Beyond the largest double there is no result. *)
Lemma b64_round_overflow (q : Q) : 2 ^ 1024 <= Qabs q -> b64_round q = None.
Proof.
  intros Hbig.
  assert (NZ : ~ q == 0).
  { intros Z0. rewrite Z0 in Hbig. pose proof (pow2_pos 1024).
    change (Qabs 0) with 0 in Hbig. lra. }
  unfold b64_round.
  destruct (Qeq_bool q 0) eqn:E0;
    [apply Qeq_bool_iff in E0; contradiction|].
  assert (Hil : (1024 <= ilog2 q)%Z).
  { assert (L : (1024 < ilog2 q + 1)%Z); [|lia].
    apply pow2_lt_inv. apply Qle_lt_trans with (Qabs q);
      [exact Hbig | apply ilog2_lt, NZ]. }
  replace (Z.max (ilog2 q) (-1022)) with (ilog2 q) by lia.
  set (s := (ilog2 q - 52)%Z).
  assert (Hr : 2 ^ 1024
               <= Qabs (inject_Z (py_round (q / 2 ^ s)) * 2 ^ s)).
  { pose proof (pow2_pos s) as Hu.
    pose proof (ilog2_le q NZ) as Hlow.
    replace (ilog2 q) with (52 + s)%Z in Hlow by (unfold s; lia).
    rewrite pow2_add in Hlow.
    apply Qle_trans with (2 ^ 52 * 2 ^ s).
    { rewrite <- pow2_add. apply pow2_le. unfold s. lia. }
    rewrite Qabs_Qmult, (Qabs_pos (2 ^ s)) by lra.
    apply Qmult_le_compat_r; [|lra].
    change (2 ^ 52) with (inject_Z (2 ^ 52)).
    change (Qabs (inject_Z (py_round (q / 2 ^ s))))
      with (inject_Z (Z.abs (py_round (q / 2 ^ s)))).
    rewrite <- Zle_Qle.
    assert (Hq : 2 ^ 52 <= Qabs (q / 2 ^ s)).
    { unfold Qdiv. rewrite Qabs_Qmult, Qabs_Qinv, (Qabs_pos (2 ^ s)) by lra.
      apply (Qmult_le_r _ _ (2 ^ s)); [exact Hu|].
      rewrite <- Qmult_assoc, (Qmult_comm (/ 2 ^ s)), Qmult_inv_r by lra.
      rewrite Qmult_1_r. exact Hlow. }
    destruct (Qlt_le_dec (q / 2 ^ s) 0) as [Neg|Pos].
    - rewrite Qabs_neg in Hq by lra.
      assert (Hle : q / 2 ^ s <= inject_Z (- 2 ^ 52)).
      { change (inject_Z (- 2 ^ 52)) with (- 2 ^ 52). lra. }
      apply Tuning.py_round_mono in Hle. rewrite py_round_Z in Hle. lia.
    - rewrite Qabs_pos in Hq by lra.
      assert (Hle : inject_Z (2 ^ 52) <= q / 2 ^ s).
      { change (inject_Z (2 ^ 52)) with (2 ^ 52). exact Hq. }
      apply Tuning.py_round_mono in Hle. rewrite py_round_Z in Hle. lia. }
  apply Qle_bool_iff in Hr. rewrite Hr. reflexivity.
Qed.

(** From 2^996 on the product of line 60 is beyond the largest double. *)
Lemma line_60_overflow (freq : Q) : 2 ^ 996 <= Qabs freq -> line_60 freq = None.
Proof.
  intros H. unfold line_60. rewrite b64_round_overflow; [reflexivity|].
  rewrite Qabs_Qmult. change (Qabs (inject_Z DDS_MAX_FREQ)) with (2 ^ 28).
  change 1024%Z with (996 + 28)%Z. rewrite pow2_add.
  apply Qmult_le_compat_r; [exact H | apply Qlt_le_weak, pow2_pos].
Qed.

End Binary64.

(** ** The write sequence of [set_frequency] *)

(** The register-select prefix as the spec names it. *)
Lemma regsel_of_spec (register : Z) :
  regsel_of register = if register =? 0 then 0x4000 else 0x8000.
Proof. unfold regsel_of, truthy. destruct (register =? 0); reflexivity. Qed.

(** C1, as stated, fails: the words are not all 16-bit words.  With
    [phase = 65536] the fourth word of [set_frequency(1000, 0)] is 0x1C000. *)
Lemma set_frequency_five_writes_counterexample :
  ~ emits_five_16_bit_words 1000 0 (Some 65536) (fst (init (healthy []))).
Proof.
  intros (w1 & w2 & w3 & w4 & w5 & Hw & HF).
  vm_compute in Hw. injection Hw as <- <- <- <- <-.
  inversion_clear HF as [|? ? _ HF1]. inversion_clear HF1 as [|? ? _ HF2].
  inversion_clear HF2 as [|? ? _ HF3]. inversion_clear HF3 as [|? ? H4 _].
  unfold word16 in H4. lia.
Qed.

(** C1, amended: for a frequency that is a double of magnitude below
    1.6 GHz and a phase in 0..4095 (or none), with a 16-bit mode value
    cached and on a bus whose next five transfers succeed, line 60 yields
    the tuning word without raising, and [set_frequency freq register phase]
    returns normally and adds exactly five framed 16-bit words to the bus,
    in this order: reset bit OR B28 flag OR current mode bits; the
    register-select prefix with the low 14 bits of the tuning word; the same
    prefix with the high 14 bits; the phase-register word; B28 flag OR
    current mode bits.  Nothing else is put on the bus. *)
Theorem set_frequency_five_writes
  (freq : Q) (register : Z) (phase : option Z) (self : AD9833) :
  binary64 freq ->
  exact_range freq ->
  word16 (waveform_mode self) ->
  0 <= get_phase phase < 4096 ->
  clear_for 5 (I self) ->
  let r := set_frequency freq register phase self in
  let mode := waveform_mode self in
  let fs := freq_setting freq in
  let regsel := if register =? 0 then 0x4000 else 0x8000 in
  let sent :=
    [ Z.lor (Z.lor 0x0100 0x2000) mode;
      regsel + fs mod 2 ^ 14;
      regsel + (fs / 2 ^ 14) mod 2 ^ 14;
      Z.lor 0xC000 (get_phase phase);
      Z.lor 0x2000 mode ] in
  line_60 freq = Some fs /\
  snd r = Done /\
  trace (I (fst r)) = trace (I self) ++ flat_map (frame (CS self)) sent /\
  words (trace (I (fst r))) = words (trace (I self)) ++ sent /\
  attempts (I (fst r)) = (attempts (I self) + 5)%nat /\
  Forall word16 sent.
Proof.
  intros Hb Hr Hmode Hphase Hc r mode fs regsel sent.
  split; [exact (Binary64.line_60_agrees freq Hb Hr)|].
  assert (Hs : five_words mode freq register phase = sent).
  { unfold five_words, sent, regsel.
    rewrite !Bits.freq_word_value, Z.shiftr_div_pow2, regsel_of_spec by lia.
    rewrite Z.lor_assoc. reflexivity. }
  subst r. rewrite (Run.set_frequency_run _ _ _ _ Hc). fold mode.
  rewrite Hs. cbn [fst snd I trace attempts CS].
  split; [reflexivity|]. split; [reflexivity|].
  split; [rewrite Run.words_app, Run.words_frames; reflexivity|].
  split; [reflexivity|].
  assert (Hreg : regsel = 0x4000 \/ regsel = 0x8000).
  { unfold regsel. destruct (register =? 0); auto. }
  pose proof (Z.mod_pos_bound fs (2 ^ 14) ltac:(lia)) as Hl.
  pose proof (Z.mod_pos_bound (fs / 2 ^ 14) (2 ^ 14) ltac:(lia)) as Hh.
  unfold sent. repeat apply Forall_cons; [| | | | |apply Forall_nil].
  - apply Bits.lor_word16; [unfold word16; cbn; lia | exact Hmode].
  - unfold word16. destruct Hreg as [-> | ->]; lia.
  - unfold word16. destruct Hreg as [-> | ->]; lia.
  - apply Bits.lor_word16; unfold word16; lia.
  - apply Bits.lor_word16; [unfold word16; lia | exact Hmode].
Qed.

Lemma set_frequency_five_writes_witness :
  let self := fst (init (healthy [])) in
  binary64 1000 /\ exact_range 1000 /\ word16 (waveform_mode self) /\
  0 <= get_phase (Some 1024) < 4096 /\ clear_for 5 (I self) /\
  words (trace (I (fst (set_frequency 1000 0 (Some 1024) self))))
  = [0x0100; 0x2000; 0x2100; 0x69F1; 0x4000; 0xC400; 0x2000].
Proof.
  assert (Hb : binary64 1000).
  { exists 1000, 0. split; [reflexivity|]. split; [discriminate | reflexivity]. }
  assert (Hf : exact_range 1000) by reflexivity.
  assert (Hm : word16 (waveform_mode (fst (init (healthy []))))).
  { split; [discriminate | reflexivity]. }
  assert (Hp : 0 <= get_phase (Some 1024) < 4096).
  { split; [discriminate | reflexivity]. }
  assert (Hc : clear_for 5 (I (fst (init (healthy []))))).
  { intros k _. reflexivity. }
  split; [exact Hb|]. split; [exact Hf|]. split; [exact Hm|].
  split; [exact Hp|]. split; [exact Hc|].
  pose proof (set_frequency_five_writes 1000 0 (Some 1024)
                (fst (init (healthy []))) Hb Hf Hm Hp Hc)
    as (_ & _ & _ & Hw & _).
  exact Hw.
Defined.

(** ** A failing transfer inside [set_frequency] *)




(** ** Range checks *)

(** C3, as stated, fails: [set_frequency (-1000) 0] is out of range, yet on
    a healthy bus it returns normally having written five words. *)
Lemma set_frequency_rejects_counterexample :
  out_of_range (-1000) /\
  ~ rejected_before_any_write (-1000) 0 None (fst (init (healthy []))).
Proof.
  split.
  - left. discriminate.
  - intros [H _]. apply H. reflexivity.
Qed.

(** C3, amended: [set_frequency] rejects nothing and knows no range error.
    For a frequency that the spec wants refused (not positive, or with a
    tuning word beyond 28 bits) and that is a double of magnitude below
    1.6 GHz, line 60 yields the tuning word without raising, the first
    thing the call does on the bus is to open the transfer of the
    reset-qualified control word, and on a bus that does not fail it returns
    normally after five words.  The only range check sits in the interactive
    front end, which for a frequency [<= 0] calls neither method and leaves
    the object and the bus as they were; no check of the upper bound
    exists. *)
Theorem set_frequency_validates_nothing
  (freq : Q) (register : Z) (phase : option Z) (self : AD9833)
  (wave_type : string) :
  out_of_range freq ->
  binary64 freq ->
  exact_range freq ->
  let r := set_frequency freq register phase self in
  line_60 freq = Some (freq_setting freq) /\
  (exists rest : list spi_op,
     trace (I (fst r)) = trace (I self) ++ Start (CS self) :: rest) /\
  (clear_for 5 (I self) ->
     snd r = Done /\
     List.length (words (trace (I (fst r))))
     = (List.length (words (trace (I self))) + 5)%nat) /\
  ((freq <= 0)%Q -> command_step wave_type freq self = (self, Done)).
Proof.
  intros _ Hb Hr r. subst r.
  split; [exact (Binary64.line_60_agrees freq Hb Hr)|].
  split; [|split].
  - rewrite Run.set_frequency_unfold. unfold five_words.
    match goal with |- context [write_all (?w :: ?ws) ?s] =>
      destruct (Run.write_all_starts w ws s) as [rest Hrest] end.
    exists rest. exact Hrest.
  - intros Hc. rewrite (Run.set_frequency_run _ _ _ _ Hc).
    cbn [fst snd I trace]. split; [reflexivity|].
    rewrite Run.words_app, Run.words_frames, length_app. reflexivity.
  - intros Hle. unfold command_step.
    apply Qle_bool_iff in Hle. rewrite Hle. reflexivity.
Qed.

Lemma set_frequency_validates_nothing_witness :
  let self := fst (init (healthy [])) in
  out_of_range (-1000) /\ binary64 (-1000) /\ exact_range (-1000) /\
  clear_for 5 (I self) /\ (-1000 <= 0)%Q /\
  snd (set_frequency (-1000) 0 None self) = Done /\
  command_step "s" (-1000) self = (self, Done).
Proof.
  assert (Ho : out_of_range (-1000)) by (left; discriminate).
  assert (Hb : binary64 (-1000)).
  { exists (-1000), 0. split; [reflexivity|].
    split; [discriminate | reflexivity]. }
  assert (Hr : exact_range (-1000)) by reflexivity.
  pose proof (set_frequency_validates_nothing (-1000) 0 None
                (fst (init (healthy []))) "s" Ho Hb Hr)
    as (_ & _ & Hrun & Hcmd).
  assert (Hc : clear_for 5 (I (fst (init (healthy []))))).
  { intros k _. reflexivity. }
  assert (Hle : (-1000 <= 0)%Q) by discriminate.
  split; [exact Ho|]. split; [exact Hb|]. split; [exact Hr|].
  split; [exact Hc|]. split; [exact Hle|].
  split; [exact (proj1 (Hrun Hc)) | exact (Hcmd Hle)].
Defined.

(** ** The frequency-select bit *)

(** [set_waveform_mode] does what its comment says: for a standard mode the
    word it writes has FSELECT set exactly when the active channel is not 0. *)
Lemma set_waveform_mode_selects (mode : Z) (self : AD9833) :
  standard_mode mode ->
  clear_for 1 (I self) ->
  exists w : Z,
    words (trace (I (fst (set_waveform_mode mode self))))
    = words (trace (I self)) ++ [w] /\
    Z.testbit w DDS_FSELECT = truthy (active_channel self).
Proof.
  intros Hm Hc. rewrite Run.set_waveform_mode_unfold.
  rewrite Run.write_all_done by exact Hc.
  cbn [fst I trace CS active_channel].
  rewrite Run.words_app, Run.words_frames.
  eexists. split; [reflexivity|].
  destruct (truthy (active_channel self));
    destruct Hm as [-> | [-> | ->]]; reflexivity.
Qed.

(** [set_frequency] never sets FSELECT in its two control words, whatever
    the register argument. *)
Lemma set_frequency_never_selects
  (mode : Z) (freq : Q) (register : Z) (phase : option Z) :
  standard_mode mode ->
  Z.testbit (nth 0 (five_words mode freq register phase) 0) DDS_FSELECT = false /\
  Z.testbit (nth 4 (five_words mode freq register phase) 0) DDS_FSELECT = false.
Proof.
  intros [-> | [-> | ->]]; split; reflexivity.
Qed.

(** C4 at [set_frequency(1000, 1)] on a fresh controller: the call makes
    channel 1 the active channel and loads FREQ1 (prefix 0x8000), but both
    control words it writes, 0x2100 and 0x2000, have the FSELECT bit clear,
    so the control register still selects channel 0. *)
Theorem set_frequency_channel_1_leaves_fselect_clear :
  let r := set_frequency 1000 1 None (fst (init (healthy []))) in
  snd r = Done /\
  active_channel (fst r) = 1 /\
  words (trace (I (fst r)))
  = [0x0100; 0x2000; 0x2100; 0xA9F1; 0x8000; 0xC000; 0x2000] /\
  Z.testbit 0x2100 DDS_FSELECT = false /\
  Z.testbit 0x2000 DDS_FSELECT = false.
Proof. repeat split; reflexivity. Qed.

(** ** The phase word *)

(** Inside 0..4095 the written word is the masked one. *)
Lemma phase_word_in_range (p : Z) :
  0 <= p < 4096 -> Z.lor 0xc000 p = Z.lor 0xC000 (Z.land p 0x0FFF).
Proof.
  intros Hp. rewrite Bits.mask12, Z.mod_small by lia. reflexivity.
Qed.

(** C7 at [set_frequency(1000, 0, phase=8192)]: the fourth word written is
    0xE000, the raw phase OR-ed onto the prefix, which addresses the PHASE1
    register; the masked word of the claim is 0xC000.  With phase 65536 the
    word, 0x1C000, no longer fits 16 bits. *)
Theorem set_frequency_phase_not_masked :
  let r := set_frequency 1000 0 (Some 8192) (fst (init (healthy []))) in
  snd r = Done /\
  words (trace (I (fst r)))
  = [0x0100; 0x2000; 0x2100; 0x69F1; 0x4000; 0xE000; 0x2000] /\
  Z.lor 0xC000 (Z.land 8192 0x0FFF) = 0xC000 /\
  0xE000 <> Z.lor 0xC000 (Z.land 8192 0x0FFF) /\
  nth 5 (words (trace (I (fst
     (set_frequency 1000 0 (Some 65536) (fst (init (healthy []))))))))  0
  = 0x1C000.
Proof. repeat split; try reflexivity. discriminate. Qed.

(** ** The constructor *)

(** C8, as stated, fails: the cached frequency of a fresh controller is
    1000, not 0. *)
Lemma init_state_counterexample :
  ~ initial_state_of_spec (fst (init (healthy []))).
Proof.
  intros (_ & _ & H). vm_compute in H. discriminate H.
Qed.

(** C8, amended: on a bus whose next two transfers succeed, the constructor
    sets the SPI parameters and then writes exactly two words, the reset
    word 0x0100 and the control word 0x2000 (B28 flag OR sine bits, reset
    clear), and leaves mode = sine, active channel = 0, frequency = 1000.
    The object caches no phase. *)
Theorem init_two_writes (bus : SPI) :
  clear_for 2 bus ->
  let r := init bus in
  snd r = Done /\
  trace (I (fst r))
  = trace bus ++ SetParameters 2 2 1 1 0
      :: frame "CS1" 0x0100 ++ frame "CS1" 0x2000 /\
  words (trace (I (fst r))) = words (trace bus) ++ [0x0100; 0x2000] /\
  0x2000 = Z.lor (Z.shiftl 1 DDS_B28) DDS_SINE /\
  Z.testbit 0x2000 DDS_RESET = false /\
  waveform_mode (fst r) = DDS_SINE /\
  active_channel (fst r) = 0 /\
  frequency (fst r) = 1000%Q.
Proof.
  intros Hc r. subst r. rewrite Run.init_unfold.
  rewrite Run.write_all_done by exact Hc.
  cbn [fst snd I trace CS waveform_mode active_channel frequency
       spi_set_parameters spi_log].
  repeat split.
  - rewrite <- app_assoc. reflexivity.
  - rewrite !Run.words_app, Run.words_frames. cbn [words].
    rewrite app_nil_r. reflexivity.
Qed.

Lemma init_two_writes_witness :
  clear_for 2 (healthy []) /\
  words (trace (I (fst (init (healthy []))))) = [0x0100; 0x2000] /\
  frequency (fst (init (healthy []))) = 1000%Q.
Proof.
  assert (Hc : clear_for 2 (healthy [])) by (intros k _; reflexivity).
  pose proof (init_two_writes (healthy []) Hc) as (_ & _ & Hw & _ & _ & _ & _ & Hf).
  split; [exact Hc|]. split; [exact Hw | exact Hf].
Defined.

(** ** [set_waveform_mode] *)

(** C9, as stated, fails: on a fresh controller [set_waveform_mode
    DDS_SQUARE] writes 0x0020, while the spec's control word for (square,
    channel 0) is 0x2020. *)
Lemma set_waveform_mode_control_word_counterexample :
  let self := fst (init (healthy [])) in
  words (trace (I (fst (set_waveform_mode DDS_SQUARE self))))
  = words (trace (I self)) ++ [0x0020] /\
  spec_control_word DDS_SQUARE (active_channel self) = 0x2020 /\
  words (trace (I (fst (set_waveform_mode DDS_SQUARE self))))
  <> words (trace (I self))
       ++ [spec_control_word DDS_SQUARE (active_channel self)].
Proof.
  repeat split. discriminate.
Qed.

(** C9, amended: on a bus whose next transfer succeeds,
    [set_waveform_mode mode] stores the mode and performs exactly one write.
    The word is the mode bits, OR-ed with the frequency-select bit when the
    active channel is not 0; the B28 flag is not added.  For a standard mode
    the word addresses the control register (bits 15 and 14 clear), so no
    frequency or phase register is written.  The cached frequency and
    channel are unchanged. *)
Theorem set_waveform_mode_one_write (mode : Z) (self : AD9833) :
  clear_for 1 (I self) ->
  let r := set_waveform_mode mode self in
  let w := if active_channel self =? 0 then mode else Z.lor mode 0x0800 in
  snd r = Done /\
  trace (I (fst r)) = trace (I self) ++ frame (CS self) w /\
  words (trace (I (fst r))) = words (trace (I self)) ++ [w] /\
  waveform_mode (fst r) = mode /\
  active_channel (fst r) = active_channel self /\
  frequency (fst r) = frequency self /\
  (standard_mode mode ->
     Z.testbit w DDS_B28 = false /\
     Z.testbit w 15 = false /\ Z.testbit w 14 = false).
Proof.
  intros Hc r w. subst r. rewrite Run.set_waveform_mode_unfold.
  rewrite Run.write_all_done by exact Hc.
  assert (Hw : (if truthy (active_channel self)
                then Z.lor mode (Z.shiftl 1 DDS_FSELECT) else mode) = w).
  { unfold w, truthy. destruct (active_channel self =? 0); reflexivity. }
  rewrite Hw.
  cbn [fst snd I trace CS waveform_mode active_channel frequency flat_map].
  rewrite app_nil_r.
  repeat split.
  - rewrite Run.words_app. reflexivity.
  - destruct H as [-> | [-> | ->]]; unfold w;
      destruct (active_channel self =? 0); reflexivity.
  - destruct H as [-> | [-> | ->]]; unfold w;
      destruct (active_channel self =? 0); reflexivity.
  - destruct H as [-> | [-> | ->]]; unfold w;
      destruct (active_channel self =? 0); reflexivity.
Qed.

Lemma set_waveform_mode_one_write_witness :
  let self := fst (init (healthy [])) in
  clear_for 1 (I self) /\ standard_mode DDS_TRIANGLE /\
  words (trace (I (fst (set_waveform_mode DDS_TRIANGLE self))))
  = [0x0100; 0x2000; 0x0002] /\
  Z.testbit 0x0002 DDS_B28 = false.
Proof.
  assert (Hc : clear_for 1 (I (fst (init (healthy []))))).
  { intros k _. reflexivity. }
  assert (Hm : standard_mode DDS_TRIANGLE) by (right; left; reflexivity).
  pose proof (set_waveform_mode_one_write DDS_TRIANGLE
                (fst (init (healthy []))) Hc)
    as (_ & _ & Hw & _ & _ & _ & Hb).
  split; [exact Hc|]. split; [exact Hm|].
  split; [exact Hw | exact (proj1 (Hb Hm))].
Defined.

(** ** The tuning word and its two halves *)

(** The first, fourth and fifth words are not at stake in what follows. *)
Lemma set_frequency_halves
  (freq : Q) (register : Z) (phase : option Z) (self : AD9833) :
  clear_for 5 (I self) ->
  exists c1 p c5 : Z,
    words (trace (I (fst (set_frequency freq register phase self))))
    = words (trace (I self))
        ++ [ c1;
             Z.land (Z.lor (regsel_of register)
                           (Z.land (freq_setting freq) 0x3FFF)) 0xFFFF;
             Z.land (Z.lor (regsel_of register)
                           (Z.land (Z.shiftr (freq_setting freq) 14) 0x3FFF))
                    0xFFFF;
             p; c5 ].
Proof.
  intros Hc. rewrite (Run.set_frequency_run _ _ _ _ Hc).
  cbn [fst I trace]. rewrite Run.words_app, Run.words_frames.
  unfold five_words. do 3 eexists. reflexivity.
Qed.

(** C5, as stated, fails from 1.6 GHz on.  For the double
    1600000000 + 195313 * 2^-22 (1600000000.0465662) the exact quotient is
    2^34 + 0.50000128 and rounds to 17179869185, but in binary64 the
    quotient is the double 2^34 + 0.5, a tie, and line 60 returns
    17179869184: the low 28 bits are 0, not 1. *)
Lemma tuning_word_rounded_counterexample :
  binary64 (6710886400195313 # 4194304) /\
  line_60 (6710886400195313 # 4194304) = Some 17179869184 /\
  ~ tuning_word_is_rounded (6710886400195313 # 4194304).
Proof.
  split; [|split].
  - exists 6710886400195313, (-22). split; [reflexivity|].
    split; [discriminate | reflexivity].
  - vm_compute. reflexivity.
  - intros (n & Hn & Hmod).
    assert (E : line_60 (6710886400195313 # 4194304) = Some 17179869184)
      by (vm_compute; reflexivity).
    rewrite E in Hn. injection Hn as <-.
    vm_compute in Hmod. discriminate Hmod.
Qed.

(** C5, amended: for every frequency that is a double of magnitude below
    1.6 GHz, at the class clock of 25 MHz, line 60 does not raise and the
    tuning word is the integer nearest to [freq * 2^28 / 25000000], ties
    going to the even one; what [set_frequency] loads into the chip is that
    integer cut to 28 bits: the two frequency words carry its low and its
    high 14 bits.  At 1000 Hz the tuning word is 10737, and the frequency
    words of [set_frequency(1000, 0)] are 0x4000 + 10737 and 0x4000 + 0. *)
Theorem tuning_word_rounded_to_28_bits
  (freq : Q) (register : Z) (phase : option Z) (self : AD9833) :
  binary64 freq ->
  exact_range freq ->
  clear_for 5 (I self) ->
  let exact := (freq * 268435456 / 25000000)%Q in
  let regsel := if register =? 0 then 0x4000 else 0x8000 in
  (exists n : Z,
     line_60 freq = Some n /\
     (Qabs (inject_Z n - exact) <= 1 # 2)%Q /\
     ((Qabs (inject_Z n - exact) == 1 # 2)%Q -> Z.even n = true) /\
     0 <= n mod 2 ^ 28 < 2 ^ 28 /\
     exists c1 p c5 : Z,
       words (trace (I (fst (set_frequency freq register phase self))))
       = words (trace (I self))
           ++ [ c1;
                regsel + (n mod 2 ^ 28) mod 2 ^ 14;
                regsel + (n mod 2 ^ 28) / 2 ^ 14;
                p; c5 ]) /\
  line_60 1000 = Some 10737 /\
  Z.land 10737 0x3FFF = 10737 /\
  Z.land (Z.shiftr 10737 14) 0x3FFF = 0 /\
  words (trace (I (fst (set_frequency 1000 0 None (fst (init (healthy [])))))))
  = [0x0100; 0x2000; 0x2100; 0x4000 + 10737; 0x4000 + 0; 0xC000; 0x2000].
Proof.
  intros Hb Hr Hc exact regsel.
  split; [|split; [vm_compute; reflexivity | repeat split]].
  exists (freq_setting freq).
  split; [exact (Binary64.line_60_agrees freq Hb Hr)|].
  split; [apply Round.py_round_nearest|].
  split; [apply Round.py_round_tie_even|].
  split; [apply Z.mod_pos_bound; lia|].
  destruct (set_frequency_halves freq register phase self Hc)
    as (c1 & p & c5 & Hw).
  exists c1, p, c5. rewrite Hw.
  rewrite !Bits.freq_word_value, Z.shiftr_div_pow2 by lia.
  destruct (Bits.halves_of_truncated (freq_setting freq)) as [Hl Hh].
  unfold regsel. rewrite Hl, Hh, regsel_of_spec. reflexivity.
Qed.

Lemma tuning_word_rounded_to_28_bits_witness :
  let self := fst (init (healthy [])) in
  binary64 5000 /\ exact_range 5000 /\ clear_for 5 (I self) /\
  exists n : Z,
    line_60 5000 = Some n /\
    (Qabs (inject_Z n - 5000 * 268435456 / 25000000) <= 1 # 2)%Q.
Proof.
  assert (Hb : binary64 5000).
  { exists 5000, 0. split; [reflexivity|]. split; [discriminate | reflexivity]. }
  assert (Hr : exact_range 5000) by reflexivity.
  assert (Hc : clear_for 5 (I (fst (init (healthy []))))).
  { intros k _. reflexivity. }
  split; [exact Hb|]. split; [exact Hr|]. split; [exact Hc|].
  destruct (tuning_word_rounded_to_28_bits 5000 0 None
              (fst (init (healthy []))) Hb Hr Hc)
    as ((n & Hn & Hnear & _) & _).
  exists n. split; [exact Hn | exact Hnear].
Defined.

(** C6: for a frequency whose tuning word fits 28 bits, the halves
    [lsb14 = word & 0x3FFF] and [msb14 = (word >> 14) & 0x3FFF], which are
    the payloads [set_frequency] puts behind the register prefix, glue back
    to exactly the tuning word: [(msb14 << 14) | lsb14 = word]. *)
Theorem split_reassemble_identity
  (freq : Q) (register : Z) (phase : option Z) (self : AD9833) :
  0 <= freq_setting freq < 2 ^ 28 ->
  clear_for 5 (I self) ->
  let word := freq_setting freq in
  let lsb14 := Z.land word 0x3FFF in
  let msb14 := Z.land (Z.shiftr word 14) 0x3FFF in
  let regsel := if register =? 0 then 0x4000 else 0x8000 in
  Z.lor (Z.shiftl msb14 14) lsb14 = word /\
  exists c1 p c5 : Z,
    words (trace (I (fst (set_frequency freq register phase self))))
    = words (trace (I self)) ++ [c1; regsel + lsb14; regsel + msb14; p; c5].
Proof.
  intros Hr Hc word lsb14 msb14 regsel. split.
  - unfold msb14, lsb14. rewrite Bits.split_glue. apply Z.mod_small. exact Hr.
  - destruct (set_frequency_halves freq register phase self Hc)
      as (c1 & p & c5 & Hw).
    exists c1, p, c5. rewrite Hw.
    rewrite !Bits.freq_word_value.
    unfold lsb14, msb14, regsel, word.
    rewrite !Bits.mask14, regsel_of_spec. reflexivity.
Qed.

Lemma split_reassemble_identity_witness :
  let self := fst (init (healthy [])) in
  0 <= freq_setting 1000000 < 2 ^ 28 /\ clear_for 5 (I self) /\
  Z.lor (Z.shiftl (Z.land (Z.shiftr (freq_setting 1000000) 14) 0x3FFF) 14)
        (Z.land (freq_setting 1000000) 0x3FFF)
  = freq_setting 1000000.
Proof.
  assert (Hr : 0 <= freq_setting 1000000 < 2 ^ 28).
  { vm_compute. split; [discriminate | reflexivity]. }
  assert (Hc : clear_for 5 (I (fst (init (healthy []))))).
  { intros k _. reflexivity. }
  split; [exact Hr|]. split; [exact Hc|].
  exact (proj1 (split_reassemble_identity 1000000 0 None
                  (fst (init (healthy []))) Hr Hc)).
Defined.




(** X1: the tuning word never decreases when the requested frequency
    grows. *)
Theorem freq_setting_monotone (f1 f2 : Q) :
  (f1 <= f2)%Q -> freq_setting f1 <= freq_setting f2.
Proof. apply Tuning.freq_setting_mono. Qed.

Lemma freq_setting_monotone_witness :
  (1000 <= 5000)%Q /\ freq_setting 1000 <= freq_setting 5000.
Proof.
  assert (H : (1000 <= 5000)%Q) by discriminate.
  split; [exact H | exact (freq_setting_monotone 1000 5000 H)].
Defined.

(** X2: for a frequency that is not negative the tuning word is not
    negative, and it fits 28 bits exactly when the frequency is below
    25 MHz minus half a step (25000000 / 2^29 Hz); up to half the clock,
    12.5 MHz, it stays at or under 2^27. *)
Theorem freq_setting_fits_28_bits (freq : Q) :
  (0 <= freq)%Q ->
  0 <= freq_setting freq /\
  (freq_setting freq < 2 ^ 28 <->
   (freq < 25000000 - 25000000 / 536870912)%Q) /\
  ((freq <= 12500000)%Q -> freq_setting freq <= 2 ^ 27).
Proof.
  intros H0. split; [|split].
  - change 0 with (freq_setting 0) at 1. apply Tuning.freq_setting_mono, H0.
  - split.
    + intros Hlt.
      destruct (Qlt_le_dec freq (25000000 - 25000000 / 536870912)) as [L|G];
        [exact L|].
      pose proof (Tuning.freq_setting_mono _ _ G) as Hm.
      assert (E : freq_setting (25000000 - 25000000 / 536870912) = 2 ^ 28)
        by (vm_compute; reflexivity).
      lia.
    + intros Hlt.
      assert (Hb : freq_setting freq <= 2 ^ 28 - 1); [|lia].
      unfold freq_setting, freq_setting_at.
      apply Tuning.py_round_below_half.
      rewrite Tuning.scaled_eq. rewrite Tuning.half_step_eq in Hlt.
      change (inject_Z (2 ^ 28 - 1)) with 268435455%Q.
      lra.
  - intros Hle. pose proof (Tuning.freq_setting_mono _ _ Hle) as Hm.
    assert (E : freq_setting 12500000 = 2 ^ 27) by (vm_compute; reflexivity).
    lia.
Qed.

Lemma freq_setting_fits_28_bits_witness :
  (0 <= 24999999)%Q /\ 0 <= freq_setting 24999999 < 2 ^ 28.
Proof.
  assert (H : (0 <= 24999999)%Q) by discriminate.
  destruct (freq_setting_fits_28_bits 24999999 H) as (Hn & Hi & _).
  split; [exact H|]. split; [exact Hn|].
  apply Hi. reflexivity.
Defined.

(** X3: a frequency of at most half a step, 25000000 / 2^29 Hz (about
    0.047 Hz), has tuning word 0, although the front end's test
    [new_freq <= 0] lets it through when it is positive: the command then
    programs 0 Hz. *)
Theorem tiny_frequency_loads_zero (freq : Q) :
  (0 < freq)%Q -> (freq <= 25000000 / 536870912)%Q ->
  Qle_bool freq 0 = false /\ freq_setting freq = 0.
Proof.
  intros Hp Hs. split.
  - destruct (Qle_bool freq 0) eqn:E; [|reflexivity].
    apply Qle_bool_iff in E. exfalso. lra.
  - assert (Hl : (0 <= freq)%Q) by lra.
    pose proof (Tuning.freq_setting_mono _ _ Hl) as H1.
    pose proof (Tuning.freq_setting_mono _ _ Hs) as H2.
    assert (E0 : freq_setting 0 = 0) by reflexivity.
    assert (E1 : freq_setting (25000000 / 536870912) = 0)
      by (vm_compute; reflexivity).
    lia.
Qed.

Lemma tiny_frequency_loads_zero_witness :
  (0 < 1 # 25)%Q /\ (1 # 25 <= 25000000 / 536870912)%Q /\
  freq_setting (1 # 25) = 0.
Proof.
  assert (Hp : (0 < 1 # 25)%Q) by reflexivity.
  assert (Hs : (1 # 25 <= 25000000 / 536870912)%Q) by discriminate.
  split; [exact Hp|]. split; [exact Hs|].
  exact (proj2 (tiny_frequency_loads_zero (1 # 25) Hp Hs)).
Defined.

(** X4: for a double of magnitude below 1.6 GHz, the frequency the tuning
    word of line 60 stands for, [n * 25000000 / 2^28], differs from the
    requested one by at most half a step, 25000000 / 2^29 Hz. *)
Theorem tuning_word_error_in_hertz (freq : Q) :
  binary64 freq ->
  exact_range freq ->
  exists n : Z,
    line_60 freq = Some n /\
    (Qabs (inject_Z n * 25000000 / 268435456 - freq)
     <= 25000000 / 536870912)%Q.
Proof.
  intros Hb Hr. exists (freq_setting freq).
  split; [exact (Binary64.line_60_agrees freq Hb Hr)|].
  pose proof (Round.py_round_nearest
                (freq * inject_Z DDS_MAX_FREQ / DDS_CLOCK)) as H.
  fold (freq_setting_at DDS_CLOCK freq) in H. fold (freq_setting freq) in H.
  apply Qabs_Qle_condition in H. apply Qabs_Qle_condition.
  rewrite Tuning.scaled_eq in H. rewrite Tuning.half_step_eq.
  assert (E : (inject_Z (freq_setting freq) * 25000000 / 268435456
               == inject_Z (freq_setting freq) * (25000000 # 268435456))%Q).
  { change (25000000 # 268435456)%Q with (25000000 / 268435456)%Q. field. }
  rewrite E. destruct H as [Hl Hu]. split; lra.
Qed.

Lemma tuning_word_error_in_hertz_witness :
  binary64 440 /\ exact_range 440 /\
  exists n : Z,
    line_60 440 = Some n /\
    (Qabs (inject_Z n * 25000000 / 268435456 - 440)
     <= 25000000 / 536870912)%Q.
Proof.
  assert (Hb : binary64 440).
  { exists 440, 0. split; [reflexivity|]. split; [discriminate | reflexivity]. }
  assert (Hr : exact_range 440) by reflexivity.
  split; [exact Hb|]. split; [exact Hr|].
  exact (tuning_word_error_in_hertz 440 Hb Hr).
Defined.

(** ** What a run of writes depends on *)

Module Bus.

(** A run reads only the chip select and the bus of the object. *)
Lemma write_all_same_bus (ws : list Z) (s1 s2 : AD9833) :
  CS s1 = CS s2 -> I s1 = I s2 ->
  I (fst (write_all ws s1)) = I (fst (write_all ws s2)) /\
  snd (write_all ws s1) = snd (write_all ws s2).
Proof.
  revert s1 s2. induction ws as [|w ws IH]; intros s1 s2 Hcs Hi.
  - cbn. auto.
  - cbn [write_all]. unfold seq.
    destruct (faults (I s1) (attempts (I s1))) eqn:Hf.
    + rewrite (Run.write_raise w s1) by exact Hf.
      rewrite (Run.write_raise w s2) by (rewrite <- Hi; exact Hf).
      cbn. rewrite Hcs, Hi. auto.
    + rewrite (Run.write_done w s1) by exact Hf.
      rewrite (Run.write_done w s2) by (rewrite <- Hi; exact Hf).
      apply IH; cbn; [exact Hcs | rewrite Hcs, Hi; reflexivity].
Qed.

Lemma low_half_add (x : Z) : (x + 2 ^ 28) mod 2 ^ 14 = x mod 2 ^ 14.
Proof.
  replace (x + 2 ^ 28) with (x + 2 ^ 14 * 2 ^ 14) by lia.
  apply Z_mod_plus_full.
Qed.

Lemma high_half_add (x : Z) :
  ((x + 2 ^ 28) / 2 ^ 14) mod 2 ^ 14 = (x / 2 ^ 14) mod 2 ^ 14.
Proof.
  replace (x + 2 ^ 28) with (x + 2 ^ 14 * 2 ^ 14) by lia.
  rewrite Z_div_plus_full by lia.
  replace (x / 2 ^ 14 + 2 ^ 14) with (x / 2 ^ 14 + 1 * 2 ^ 14) by lia.
  apply Z_mod_plus_full.
Qed.

Lemma five_words_add_clock
  (mode : Z) (freq : Q) (register : Z) (phase : option Z) :
  five_words mode (freq + DDS_CLOCK) register phase
  = five_words mode freq register phase.
Proof.
  unfold five_words. rewrite Tuning.freq_setting_add_clock.
  rewrite !Bits.freq_word_value, !Z.shiftr_div_pow2 by lia.
  rewrite low_half_add, high_half_add. reflexivity.
Qed.

End Bus.

(** X5: below 1.6 GHz [set_frequency] cannot tell a frequency from the
    same frequency plus the clock, 25 MHz.  When both are doubles of
    magnitude below 1.6 GHz, line 60 gives tuning words 2^28 apart, and
    whichever transfers fail both calls put the same operations on the bus
    and end the same way; only the cached frequency differs. *)
Theorem set_frequency_wraps_at_clock
  (freq : Q) (register : Z) (phase : option Z) (self : AD9833) :
  binary64 freq -> exact_range freq ->
  binary64 (freq + DDS_CLOCK) -> exact_range (freq + DDS_CLOCK) ->
  let r1 := set_frequency freq register phase self in
  let r2 := set_frequency (freq + DDS_CLOCK) register phase self in
  (exists n : Z,
     line_60 freq = Some n /\
     line_60 (freq + DDS_CLOCK) = Some (n + 2 ^ 28)) /\
  I (fst r2) = I (fst r1) /\
  snd r2 = snd r1 /\
  frequency (fst r1) = freq /\
  frequency (fst r2) = (freq + DDS_CLOCK)%Q.
Proof.
  intros Hb1 Hr1 Hb2 Hr2 r1 r2. split.
  { exists (freq_setting freq).
    split; [exact (Binary64.line_60_agrees freq Hb1 Hr1)|].
    rewrite <- Tuning.freq_setting_add_clock.
    exact (Binary64.line_60_agrees _ Hb2 Hr2). }
  subst r1 r2. rewrite !Run.set_frequency_unfold.
  rewrite Bus.five_words_add_clock.
  match goal with |- context [write_all ?ws ?s2] =>
    match goal with |- context [write_all ws ?s1] =>
      tryif constr_eq s1 s2 then fail else
        destruct (Bus.write_all_same_bus ws s2 s1 eq_refl eq_refl) as [Hi Ho];
        destruct (Run.write_all_prefix ws s1) as (_ & _ & _ & _ & _ & _ & _ & _ & F1);
        destruct (Run.write_all_prefix ws s2) as (_ & _ & _ & _ & _ & _ & _ & _ & F2)
    end
  end.
  cbn [frequency] in F1, F2. auto.
Qed.

Lemma set_frequency_wraps_at_clock_witness :
  let self := fst (init (healthy [])) in
  binary64 1000 /\ exact_range 1000 /\
  binary64 (1000 + DDS_CLOCK) /\ exact_range (1000 + DDS_CLOCK) /\
  I (fst (set_frequency (1000 + DDS_CLOCK) 0 None self))
  = I (fst (set_frequency 1000 0 None self)).
Proof.
  assert (Hb1 : binary64 1000).
  { exists 1000, 0. split; [reflexivity|]. split; [discriminate | reflexivity]. }
  assert (Hr1 : exact_range 1000) by reflexivity.
  assert (Hb2 : binary64 (1000 + DDS_CLOCK)).
  { exists 25001000, 0. split; [reflexivity|].
    split; [discriminate | reflexivity]. }
  assert (Hr2 : exact_range (1000 + DDS_CLOCK)) by reflexivity.
  split; [exact Hb1|]. split; [exact Hr1|]. split; [exact Hb2|].
  split; [exact Hr2|].
  pose proof (set_frequency_wraps_at_clock 1000 0 None
                (fst (init (healthy []))) Hb1 Hr1 Hb2 Hr2) as (_ & Hi & _).
  exact Hi.
Defined.

(** ** Chip select, faults and the words of the front end *)

Module Protocol.

Lemma cs_depth_app (a b : list spi_op) :
  cs_depth (a ++ b) = cs_depth a + cs_depth b.
Proof.
  induction a as [|op a IH]; cbn; [reflexivity|].
  destruct op; rewrite ?IH; lia.
Qed.

(** A run releases every chip select it asserts, except the one of the
    transfer that raised; it never touches the fault schedule. *)
Lemma write_all_cs (ws : list Z) (self : AD9833) :
  cs_depth (trace (I (fst (write_all ws self))))
  = cs_depth (trace (I self)) + opened (snd (write_all ws self)) /\
  faults (I (fst (write_all ws self))) = faults (I self).
Proof.
  revert self. induction ws as [|w ws IH]; intros self.
  - cbn. split; [lia | reflexivity].
  - cbn [write_all]. unfold seq.
    destruct (faults (I self) (attempts (I self))) eqn:Hf.
    + rewrite Run.write_raise by exact Hf. cbn.
      rewrite cs_depth_app. cbn. split; [lia | reflexivity].
    + rewrite Run.write_done by exact Hf.
      match goal with |- context [write_all ws ?s] =>
        destruct (IH s) as [Hd Hq] end.
      rewrite Hd, Hq. cbn. rewrite cs_depth_app. cbn. split; [lia | reflexivity].
Qed.

Lemma clear_for_skip (a b : nat) (t t' : list spi_op) (n : nat) (f : nat -> bool) :
  clear_for (a + b) (mkSPI t n f) -> clear_for b (mkSPI t' (n + a) f).
Proof.
  intros H k Hk. cbn in *.
  replace (n + a + k)%nat with (n + (a + k))%nat by lia. apply H. lia.
Qed.

Lemma clear_for_less (a b : nat) (s : SPI) :
  (a <= b)%nat -> clear_for b s -> clear_for a s.
Proof. intros Hab H k Hk. apply H. lia. Qed.

Lemma never_fails_clear (n : nat) (s : SPI) : never_fails s -> clear_for n s.
Proof. intros H k _. apply H. Qed.

End Protocol.

(** X6: [write] has no [finally], so a transfer that fails in [send16]
    keeps its chip select asserted.  For a frequency on which line 60 does
    not raise (a double of magnitude below 1.6 GHz), and with [send16] the
    bus call that fails: a [set_frequency] or [set_waveform_mode] that
    returns normally leaves as many chip selects asserted as before it, and
    one in which a [send16] raised leaves one more, the [stop] of the failed
    transfer never being sent. *)
Theorem chip_select_released_iff_done
  (freq : Q) (register : Z) (phase : option Z) (mode : Z) (self : AD9833) :
  binary64 freq ->
  exact_range freq ->
  let r := set_frequency freq register phase self in
  let r' := set_waveform_mode mode self in
  line_60 freq = Some (freq_setting freq) /\
  cs_depth (trace (I (fst r))) = cs_depth (trace (I self)) + opened (snd r) /\
  cs_depth (trace (I (fst r'))) = cs_depth (trace (I self)) + opened (snd r').
Proof.
  intros Hb Hr r r'. subst r r'.
  split; [exact (Binary64.line_60_agrees freq Hb Hr)|].
  rewrite Run.set_frequency_unfold, Run.set_waveform_mode_unfold.
  split.
  - match goal with |- context [write_all ?ws ?s] =>
      exact (proj1 (Protocol.write_all_cs ws s)) end.
  - match goal with |- context [write_all ?ws ?s] =>
      exact (proj1 (Protocol.write_all_cs ws s)) end.
Qed.

Lemma chip_select_released_iff_done_witness :
  binary64 5000 /\ exact_range 5000 /\
  cs_depth (trace (I (fst (set_frequency 5000 1 None third_write_fails))))
  = cs_depth (trace (I third_write_fails))
    + opened (snd (set_frequency 5000 1 None third_write_fails)).
Proof.
  assert (Hb : binary64 5000).
  { exists 5000, 0. split; [reflexivity|]. split; [discriminate | reflexivity]. }
  assert (Hr : exact_range 5000) by reflexivity.
  split; [exact Hb|]. split; [exact Hr|].
  pose proof (chip_select_released_iff_done 5000 1 None DDS_SINE
                third_write_fails Hb Hr) as (_ & Hd & _).
  exact Hd.
Defined.



(** ** The command loop *)

Module Loop.

Lemma mode_const_of_standard (wave_type : string) (m : Z) :
  mode_const_of wave_type = Some m -> standard_mode m.
Proof.
  unfold mode_const_of, standard_mode.
  destruct (String.eqb wave_type "s"); [intros [= <-]; auto|].
  destruct (String.eqb wave_type "t"); [intros [= <-]; auto|].
  destruct (String.eqb wave_type "q"); [intros [= <-]; auto|].
  discriminate.
Qed.

Lemma Forall_firstn {A : Type} (P : A -> Prop) (k : nat) (l : list A) :
  Forall P l -> Forall P (firstn k l).
Proof.
  revert k. induction l as [|a l IH]; intros k H.
  - rewrite firstn_nil. constructor.
  - destruct k; cbn; [constructor|].
    inversion H; subst. constructor; auto.
Qed.

Lemma extends_refl (P : Z -> Prop) (s : AD9833) : extends_by P s s.
Proof. exists []. rewrite app_nil_r. split; [reflexivity | constructor]. Qed.

Lemma extends_trans (P : Z -> Prop) (a b c : AD9833) :
  extends_by P a b -> extends_by P b c -> extends_by P a c.
Proof.
  intros (n1 & H1 & F1) (n2 & H2 & F2). exists (n1 ++ n2).
  rewrite H2, H1, app_assoc. split; [reflexivity|].
  apply Forall_app. auto.
Qed.

(** The five words of a front-end call: channel 0, no phase argument. *)
Lemma front_words_ok (m : Z) (freq : Q) :
  standard_mode m ->
  Forall word16 (five_words m freq 0 None) /\
  Forall keeps_channel_0 (five_words m freq 0 None).
Proof.
  intros Hm. unfold five_words.
  pose proof (Bits.freq_word_range 0 (freq_setting freq)) as R2.
  pose proof (Bits.freq_word_range 0 (Z.shiftr (freq_setting freq) 14)) as R3.
  assert (B : forall x,
             Z.testbit (Z.land (Z.lor (regsel_of 0) (Z.land x 0x3FFF)) 0xFFFF) 14
             = true).
  { intros x. rewrite Z.land_spec, Z.lor_spec. reflexivity. }
  split.
  - repeat constructor; try exact (proj1 R2); try exact (proj2 R2);
      try exact (proj1 R3); try exact (proj2 R3);
      destruct Hm as [-> | [-> | ->]]; reflexivity || discriminate.
  - repeat constructor; unfold keeps_channel_0; intros H15 H14;
      try (rewrite B in H14; discriminate H14);
      try (cbn in H15; discriminate H15);
      destruct Hm as [-> | [-> | ->]]; reflexivity.
Qed.

Lemma mode_word_ok (m ch : Z) :
  standard_mode m ->
  word16 (if truthy ch then Z.lor m (Z.shiftl 1 DDS_FSELECT) else m) /\
  (ch = 0 ->
   keeps_channel_0 (if truthy ch then Z.lor m (Z.shiftl 1 DDS_FSELECT) else m)).
Proof.
  intros Hm. split.
  - destruct (truthy ch); destruct Hm as [-> | [-> | ->]];
      split; reflexivity || discriminate.
  - intros ->. cbn. intros _ _. destruct Hm as [-> | [-> | ->]]; reflexivity.
Qed.

(** What one run of writes adds, given that all its words are fine. *)
Lemma write_all_step (P : Z -> Prop) (ws : list Z) (self : AD9833) :
  Forall P ws ->
  let s' := fst (write_all ws self) in
  extends_by P self s' /\
  CS s' = CS self /\ faults (I s') = faults (I self) /\
  waveform_mode s' = waveform_mode self /\
  active_channel s' = active_channel self /\
  frequency s' = frequency self.
Proof.
  intros HP s'. subst s'.
  destruct (Run.write_all_prefix ws self)
    as (k & _ & Hw & _ & _ & H1 & H2 & H3 & H4).
  destruct (Protocol.write_all_cs ws self) as [_ Hf].
  split; [|auto].
  exists (firstn k ws). split; [exact Hw | apply Forall_firstn, HP].
Qed.

(** One accepted or refused command: what it may change and what it adds. *)
Lemma command_step_facts (wave_type : string) (new_freq : Q) (self : AD9833) :
  let s' := fst (command_step wave_type new_freq self) in
  CS s' = CS self /\ faults (I s') = faults (I self) /\
  extends_by word16 self s' /\
  (standard_mode (waveform_mode self) -> standard_mode (waveform_mode s')) /\
  (active_channel self = 0 ->
   active_channel s' = 0 /\ extends_by keeps_channel_0 self s').
Proof.
  unfold command_step.
  destruct (Qle_bool new_freq 0);
    [cbn; repeat split; auto using extends_refl|].
  destruct (mode_const_of wave_type) as [m|] eqn:Em;
    [|cbn; repeat split; auto using extends_refl].
  apply mode_const_of_standard in Em.
  unfold catching, seq. cbn [fst].
  rewrite Run.set_waveform_mode_unfold.
  destruct (mode_word_ok m (active_channel self) Em) as [W16 Wch].
  set (w0 := if truthy (active_channel self)
             then Z.lor m (Z.shiftl 1 DDS_FSELECT) else m) in *.
  set (s0 := mkAD9833 (CS self) (I self) m (active_channel self)
                      (frequency self)).
  assert (A16 : Forall word16 [w0]) by (constructor; auto).
  destruct (write_all_step word16 [w0] s0 A16)
    as (X16 & C1 & F1 & M1 & Ch1 & _).
  assert (Xch : active_channel self = 0 ->
                extends_by keeps_channel_0 s0 (fst (write_all [w0] s0))).
  { intros Hz.
    apply (write_all_step keeps_channel_0 [w0] s0).
    constructor; auto. }
  destruct (write_all [w0] s0) as [s1 [|]];
    cbn [fst snd] in *;
    change (waveform_mode s0) with m in *;
    change (CS s0) with (CS self) in *;
    change (I s0) with (I self) in *;
    change (active_channel s0) with (active_channel self) in *.
  - rewrite Run.set_frequency_unfold. rewrite M1.
    destruct (front_words_ok m new_freq Em) as [G16 Gch].
    set (s2 := mkAD9833 (CS s1) (I s1) m 0 new_freq).
    destruct (write_all_step word16 _ s2 G16)
      as (Y16 & C2 & F2 & M2 & Ch2 & _).
    destruct (write_all_step keeps_channel_0 _ s2 Gch) as (Ych & _).
    change (CS s2) with (CS s1) in *.
    change (I s2) with (I s1) in *.
    change (waveform_mode s2) with m in *.
    change (active_channel s2) with 0 in *.
    split; [congruence|]. split; [congruence|].
    split; [exact (extends_trans _ self s1 _ X16 Y16)|].
    split; [intros _; rewrite M2; exact Em|].
    intros Hz. split; [exact Ch2|].
    exact (extends_trans _ self s1 _ (Xch Hz) Ych).
  - split; [exact C1|]. split; [exact F1|]. split; [exact X16|].
    split; [intros _; rewrite M1; exact Em|].
    intros Hz. split; [congruence | exact (Xch Hz)].
Qed.

Lemma loop_body_facts
  (float_of : string -> option Q) (parts : list string) (self : AD9833) :
  let s' := fst (loop_body float_of parts self) in
  CS s' = CS self /\ faults (I s') = faults (I self) /\
  extends_by word16 self s' /\
  (standard_mode (waveform_mode self) -> standard_mode (waveform_mode s')) /\
  (active_channel self = 0 ->
   active_channel s' = 0 /\ extends_by keeps_channel_0 self s').
Proof.
  assert (Same : CS self = CS self /\ faults (I self) = faults (I self) /\
                 extends_by word16 self self /\
                 (standard_mode (waveform_mode self) ->
                  standard_mode (waveform_mode self)) /\
                 (active_channel self = 0 ->
                  active_channel self = 0 /\
                  extends_by keeps_channel_0 self self)).
  { repeat split; auto using extends_refl. }
  unfold loop_body.
  destruct parts as [|first rest]; [exact Same|].
  destruct (String.eqb first "x"); [exact Same|].
  destruct rest as [|number rest]; [exact Same|].
  destruct rest; [|exact Same].
  destruct (float_of number) as [new_freq|]; [|exact Same].
  apply command_step_facts.
Qed.

Lemma main_loop_facts
  (float_of : string -> option Q) (lines : list (list string)) (self : AD9833) :
  let s' := main_loop float_of lines self in
  CS s' = CS self /\ faults (I s') = faults (I self) /\
  extends_by word16 self s' /\
  (standard_mode (waveform_mode self) -> standard_mode (waveform_mode s')) /\
  (active_channel self = 0 ->
   active_channel s' = 0 /\ extends_by keeps_channel_0 self s').
Proof.
  revert self. induction lines as [|parts lines IH]; intros self.
  - cbn. repeat split; auto using extends_refl.
  - cbn [main_loop].
    pose proof (loop_body_facts float_of parts self) as Hb.
    destruct (loop_body float_of parts self) as [s1 [|]]; cbn [fst] in Hb;
      [exact Hb|].
    destruct Hb as (C1 & F1 & X1 & M1 & Z1).
    destruct (IH s1) as (C2 & F2 & X2 & M2 & Z2).
    split; [congruence|]. split; [congruence|].
    split; [exact (extends_trans _ _ _ _ X1 X2)|].
    split; [auto|].
    intros Hz. destruct (Z1 Hz) as [Hz1 E1]. destruct (Z2 Hz1) as [Hz2 E2].
    split; [exact Hz2 | exact (extends_trans _ _ _ _ E1 E2)].
Qed.

End Loop.

(** X8: whatever lines are typed and whichever transfers fail, every word
    the command loop puts on the bus fits 16 bits. *)
Theorem main_loop_words_fit_16_bits
  (float_of : string -> option Q) (lines : list (list string)) (self : AD9833) :
  extends_by word16 self (main_loop float_of lines self).
Proof. apply Loop.main_loop_facts. Qed.

(** X9: the command loop never leaves channel 0.  Started with active
    channel 0 and a class mode cached, after any lines and any failed
    transfers the active channel is still 0, the cached mode is still one of
    sine, triangle, square, and no control word it wrote has the
    frequency-select bit set. *)
Theorem main_loop_stays_on_channel_0
  (float_of : string -> option Q) (lines : list (list string)) (self : AD9833) :
  active_channel self = 0 ->
  standard_mode (waveform_mode self) ->
  let s' := main_loop float_of lines self in
  active_channel s' = 0 /\
  standard_mode (waveform_mode s') /\
  extends_by keeps_channel_0 self s'.
Proof.
  intros Hz Hm s'. subst s'.
  destruct (Loop.main_loop_facts float_of lines self) as (_ & _ & _ & M & Z).
  destruct (Z Hz). auto.
Qed.

Lemma main_loop_stays_on_channel_0_witness :
  let self := fst (init (healthy [])) in
  let float_of := fun _ : string => Some 5000%Q in
  active_channel self = 0 /\ standard_mode (waveform_mode self) /\
  active_channel (main_loop float_of [["q"; "5000"]; ["x"]]%string self) = 0.
Proof.
  assert (Hz : active_channel (fst (init (healthy []))) = 0) by reflexivity.
  assert (Hm : standard_mode (waveform_mode (fst (init (healthy []))))).
  { left. reflexivity. }
  split; [exact Hz|]. split; [exact Hm|].
  exact (proj1 (main_loop_stays_on_channel_0
                  (fun _ : string => Some 5000%Q) [["q"; "5000"]; ["x"]]%string
                  (fst (init (healthy []))) Hz Hm)).
Defined.

(** X10: an accepted command (known wave letter, positive frequency that
    is a double below 1.6 GHz) on a bus whose next six transfers succeed
    writes six words: the mode word of [set_waveform_mode], then the five
    words of [set_frequency] for channel 0 and phase 0, with the tuning word
    line 60 computes.  The reset-qualified word and the closing control word
    already carry the new mode, and the cache ends as (new mode, channel 0,
    new frequency). *)
Theorem command_step_accepted
  (wave_type : string) (mode_const : Z) (new_freq : Q) (self : AD9833) :
  mode_const_of wave_type = Some mode_const ->
  (0 < new_freq)%Q ->
  binary64 new_freq ->
  exact_range new_freq ->
  clear_for 6 (I self) ->
  let r := command_step wave_type new_freq self in
  let fs := freq_setting new_freq in
  line_60 new_freq = Some fs /\
  snd r = Done /\
  words (trace (I (fst r)))
  = words (trace (I self))
      ++ [ if active_channel self =? 0 then mode_const
           else Z.lor mode_const 0x0800;
           Z.lor 0x2100 mode_const;
           0x4000 + fs mod 2 ^ 14;
           0x4000 + (fs / 2 ^ 14) mod 2 ^ 14;
           0xC000;
           Z.lor 0x2000 mode_const ] /\
  waveform_mode (fst r) = mode_const /\
  active_channel (fst r) = 0 /\
  frequency (fst r) = new_freq.
Proof.
  intros Em Hp Hb Hr Hc r fs.
  split; [exact (Binary64.line_60_agrees new_freq Hb Hr)|].
  subst r. unfold command_step.
  assert (Hq : Qle_bool new_freq 0 = false).
  { destruct (Qle_bool new_freq 0) eqn:E; [|reflexivity].
    apply Qle_bool_iff in E. exfalso. lra. }
  rewrite Hq, Em. unfold catching, seq. cbn [fst snd].
  rewrite Run.set_waveform_mode_unfold.
  rewrite Run.write_all_done
    by (apply (Protocol.clear_for_less 1 6); [lia | exact Hc]).
  cbn [CS I trace attempts faults waveform_mode active_channel frequency
       List.length].
  destruct self as [cs [t a f] m ch fr].
  cbn [CS I trace attempts faults waveform_mode active_channel frequency] in *.
  rewrite Run.set_frequency_run
    by (cbn [I]; apply (Protocol.clear_for_skip 1 5 t); exact Hc).
  cbn [fst snd CS I trace waveform_mode active_channel frequency].
  rewrite !Run.words_app, !Run.words_frames, <- app_assoc.
  repeat split. f_equal. unfold five_words. cbn [app].
  rewrite !Bits.freq_word_value, Z.shiftr_div_pow2, Z.lor_assoc by lia.
  unfold truthy. destruct (ch =? 0); reflexivity.
Qed.

Lemma command_step_accepted_witness :
  let self := fst (init (healthy [])) in
  mode_const_of "q" = Some DDS_SQUARE /\ (0 < 5000)%Q /\
  binary64 5000 /\ exact_range 5000 /\
  clear_for 6 (I self) /\
  words (trace (I (fst (command_step "q" 5000 self))))
  = [0x0100; 0x2000; 0x0020; 0x2120; 0x51B7; 0x4003; 0xC000; 0x2020].
Proof.
  assert (Em : mode_const_of "q" = Some DDS_SQUARE) by reflexivity.
  assert (Hp : (0 < 5000)%Q) by reflexivity.
  assert (Hb : binary64 5000).
  { exists 5000, 0. split; [reflexivity|]. split; [discriminate | reflexivity]. }
  assert (Hr : exact_range 5000) by reflexivity.
  assert (Hc : clear_for 6 (I (fst (init (healthy []))))).
  { intros k _. reflexivity. }
  split; [exact Em|]. split; [exact Hp|]. split; [exact Hb|].
  split; [exact Hr|]. split; [exact Hc|].
  pose proof (command_step_accepted "q" DDS_SQUARE 5000
                (fst (init (healthy []))) Em Hp Hb Hr Hc) as (_ & _ & Hw & _).
  exact Hw.
Defined.

(** X11: when the first transfer of an accepted command fails, the error
    is swallowed by the loop, [set_frequency] is not called, and no word
    reaches the chip; yet the cached mode is already the new one, while the
    cached frequency and channel are the old ones, and the chip select of
    the failed transfer stays asserted. *)
Theorem command_step_first_transfer_fails
  (wave_type : string) (mode_const : Z) (new_freq : Q) (self : AD9833) :
  mode_const_of wave_type = Some mode_const ->
  (0 < new_freq)%Q ->
  faults (I self) (attempts (I self)) = true ->
  let r := command_step wave_type new_freq self in
  snd r = Done /\
  waveform_mode (fst r) = mode_const /\
  frequency (fst r) = frequency self /\
  active_channel (fst r) = active_channel self /\
  words (trace (I (fst r))) = words (trace (I self)) /\
  trace (I (fst r)) = trace (I self) ++ [Start (CS self)] /\
  attempts (I (fst r)) = S (attempts (I self)).
Proof.
  intros Em Hp Hf r. subst r. unfold command_step.
  assert (Hq : Qle_bool new_freq 0 = false).
  { destruct (Qle_bool new_freq 0) eqn:E; [|reflexivity].
    apply Qle_bool_iff in E. exfalso. lra. }
  rewrite Hq, Em. unfold catching, seq. cbn [fst snd].
  rewrite Run.set_waveform_mode_unfold. cbn [write_all]. unfold seq.
  rewrite Run.write_raise by exact Hf.
  cbn [fst snd CS I trace attempts waveform_mode active_channel frequency].
  repeat split.
  rewrite Run.words_app. cbn. apply app_nil_r.
Qed.

Lemma command_step_first_transfer_fails_witness :
  let self := fst (init (failing_at 2 [])) in
  mode_const_of "t" = Some DDS_TRIANGLE /\ (0 < 440)%Q /\
  faults (I self) (attempts (I self)) = true /\
  waveform_mode (fst (command_step "t" 440 self)) = DDS_TRIANGLE /\
  frequency (fst (command_step "t" 440 self)) = 1000%Q.
Proof.
  assert (Em : mode_const_of "t" = Some DDS_TRIANGLE) by reflexivity.
  assert (Hp : (0 < 440)%Q) by reflexivity.
  assert (Hf : faults (I (fst (init (failing_at 2 []))))
                 (attempts (I (fst (init (failing_at 2 []))))) = true)
    by reflexivity.
  split; [exact Em|]. split; [exact Hp|]. split; [exact Hf|].
  pose proof (command_step_first_transfer_fails "t" DDS_TRIANGLE 440
                (fst (init (failing_at 2 []))) Em Hp Hf)
    as (_ & Hm & Hfr & _).
  split; [exact Hm | exact Hfr].
Defined.

(** X12: a line whose first token is [x] ends the loop whatever follows
    on it ([x 5000] quits as well): it changes nothing itself and no later
    line is read. *)
Theorem exit_line_ends_loop
  (float_of : string -> option Q)
  (before after : list (list string)) (rest_of_line : list string)
  (self : AD9833) :
  main_loop float_of (before ++ ("x"%string :: rest_of_line) :: after) self
  = main_loop float_of before self.
Proof.
  revert self. induction before as [|parts before IH]; intros self.
  - reflexivity.
  - cbn [app main_loop].
    destruct (loop_body float_of parts self) as [s1 [|]]; [reflexivity|].
    apply IH.
Qed.

(** X13: a line that is not an exit line and is empty, has a token count
    other than two, a number [float] refuses, a frequency [<= 0] or an
    unknown wave letter is skipped: the loop goes on as if the line had not
    been typed, and nothing reaches the bus for it. *)
Theorem refused_line_is_skipped
  (float_of : string -> option Q)
  (before after : list (list string)) (parts : list string) (self : AD9833) :
  (forall rest, parts <> "x"%string :: rest) ->
  (List.length parts <> 2%nat \/
   exists wave_type number,
     parts = [wave_type; number] /\
     (float_of number = None \/
      exists new_freq,
        float_of number = Some new_freq /\
        ((new_freq <= 0)%Q \/ mode_const_of wave_type = None))) ->
  main_loop float_of (before ++ parts :: after) self
  = main_loop float_of (before ++ after) self.
Proof.
  intros Hx Hbad.
  assert (Hskip : forall s, loop_body float_of parts s = (s, false)).
  { intros s. unfold loop_body.
    destruct parts as [|first rest]; [reflexivity|].
    destruct (String.eqb_spec first "x") as [->|_];
      [exfalso; exact (Hx rest eq_refl)|].
    destruct Hbad as [Hlen | (w & n & [= -> ->] & Hwhy)].
    - destruct rest as [|a [|b rest]]; try reflexivity.
      exfalso. apply Hlen. reflexivity.
    - destruct Hwhy as [-> | (q & -> & [Hle | Hm])]; [reflexivity| |].
      + unfold command_step. apply Qle_bool_iff in Hle. rewrite Hle.
        reflexivity.
      + unfold command_step. rewrite Hm.
        destruct (Qle_bool q 0); reflexivity. }
  revert self. induction before as [|l before IH]; intros self.
  - cbn [app main_loop]. rewrite Hskip. reflexivity.
  - cbn [app main_loop].
    destruct (loop_body float_of l self) as [s1 [|]]; [reflexivity|].
    apply IH.
Qed.

Lemma refused_line_is_skipped_witness :
  let float_of := fun _ : string => Some (-5)%Q in
  let self := fst (init (healthy [])) in
  (forall rest, ["s"; "-5"]%string <> "x"%string :: rest) /\
  main_loop float_of ([] ++ ["s"; "-5"]%string :: []) self
  = main_loop float_of ([] ++ []) self.
Proof.
  assert (Hx : forall rest, ["s"; "-5"]%string <> "x"%string :: rest).
  { intros rest. discriminate. }
  split; [exact Hx|].
  apply (refused_line_is_skipped (fun _ : string => Some (-5)%Q) [] []
           ["s"; "-5"]%string (fst (init (healthy []))) Hx).
  right. exists "s"%string, "-5"%string. split; [reflexivity|].
  right. exists (-5)%Q. split; [reflexivity|]. left. discriminate.
Defined.

(** X14: on a bus that never fails, for input that contains an exit
    line, the program ends normally: it writes the two words of the
    constructor and the six of the start-up calls (sine, 1000 Hz, channel
    0), then only 16-bit words for the commands typed before the exit line,
    and last of all the reset word 0x0100, so the chip is left in reset. *)
Theorem program_ends_in_reset
  (float_of : string -> option Q) (bus : SPI) (lines : list (list string)) :
  never_fails bus ->
  (exists before rest_of_line after,
     lines = before ++ ("x"%string :: rest_of_line) :: after) ->
  let r := program float_of bus lines in
  snd r = Exited /\
  exists middle : list Z,
    Forall word16 middle /\
    words (trace (I (fst r)))
    = words (trace bus)
        ++ [0x0100; 0x2000; 0x0000; 0x2100; 0x69F1; 0x4000; 0xC000; 0x2000]
        ++ middle ++ [0x0100].
Proof.
  intros Hn _ r. subst r.
  destruct (program float_of bus lines) as [final how] eqn:E.
  unfold program in E.
  rewrite Run.init_unfold in E.
  rewrite Run.write_all_done in E
    by (apply Protocol.never_fails_clear; exact Hn).
  unfold seq at 1 in E. rewrite Run.set_waveform_mode_unfold in E.
  rewrite Run.write_all_done in E
    by (apply Protocol.never_fails_clear; exact Hn).
  rewrite Run.set_frequency_run in E
    by (apply Protocol.never_fails_clear; exact Hn).
  cbn [CS I trace attempts faults waveform_mode active_channel frequency
       spi_set_parameters spi_log] in E.
  match type of E with context [main_loop float_of lines ?s] =>
    destruct (Loop.main_loop_facts float_of lines s)
      as (Hcs & Hf & (middle & Hw & H16) & _);
    set (s1 := main_loop float_of lines s) in *
  end.
  cbn [CS I faults trace] in Hcs, Hf, Hw.
  unfold exit_reset in E.
  rewrite Run.write_done in E by (rewrite Hf; apply Hn).
  injection E as <- <-.
  cbn [fst snd I trace]. split; [reflexivity|].
  exists middle. split; [exact H16|].
  rewrite Run.words_app, Hw.
  rewrite !Run.words_app, !Run.words_frames. cbn [words frame].
  rewrite <- !app_assoc. reflexivity.
Qed.

Lemma program_ends_in_reset_witness :
  never_fails (healthy []) /\
  (exists before rest_of_line after,
     [["t"; "440"]; ["x"]]%string
     = before ++ ("x"%string :: rest_of_line) :: after) /\
  snd (program (fun _ : string => Some 440%Q) (healthy [])
         [["t"; "440"]; ["x"]]%string) = Exited.
Proof.
  assert (Hn : never_fails (healthy [])) by (intros k; reflexivity).
  assert (Hx : exists before rest_of_line after,
             [["t"; "440"]; ["x"]]%string
             = before ++ ("x"%string :: rest_of_line) :: after).
  { exists [["t"; "440"]]%string, [], []. reflexivity. }
  split; [exact Hn|]. split; [exact Hx|].
  exact (proj1 (program_ends_in_reset (fun _ : string => Some 440%Q)
                  (healthy []) [["t"; "440"]; ["x"]]%string Hn Hx)).
Defined.




(** X16: for every double of magnitude below 1.6 GHz (so for every Python
    int in that range too), line 60 evaluated in binary64 does not raise
    and returns exactly [freq * 2^28 / 25000000] rounded to the nearest
    integer, ties to even: the two float roundings change nothing there. *)
Theorem line_60_exact_below_1600_MHz (freq : Q) :
  binary64 freq ->
  exact_range freq ->
  line_60 freq = Some (py_round (freq * 268435456 / 25000000)%Q).
Proof. intros Hb Hr. exact (Binary64.line_60_agrees freq Hb Hr). Qed.

Lemma line_60_exact_below_1600_MHz_witness :
  binary64 (1 # 8) /\ exact_range (1 # 8) /\
  line_60 (1 # 8) = Some (py_round ((1 # 8) * 268435456 / 25000000)%Q).
Proof.
  assert (Hb : binary64 (1 # 8)).
  { exists 1, (-3). split; [reflexivity|]. split; [discriminate | reflexivity]. }
  assert (Hr : exact_range (1 # 8)) by reflexivity.
  split; [exact Hb|]. split; [exact Hr|].
  exact (line_60_exact_below_1600_MHz (1 # 8) Hb Hr).
Defined.

(** X17: for a frequency of magnitude 2^996 (about 6.7e299 Hz) or more,
    the product of line 60 is beyond the largest double and the line raises
    [OverflowError]: no tuning word is computed. *)
Theorem line_60_raises_on_huge_frequency (freq : Q) :
  (2 ^ 996 <= Qabs freq)%Q -> line_60 freq = None.
Proof. apply Binary64.line_60_overflow. Qed.

Lemma line_60_raises_on_huge_frequency_witness :
  (2 ^ 996 <= Qabs (inject_Z (2 ^ 1000)))%Q /\
  line_60 (inject_Z (2 ^ 1000)) = None.
Proof.
  assert (H : (2 ^ 996 <= Qabs (inject_Z (2 ^ 1000)))%Q).
  { vm_compute. discriminate. }
  split; [exact H | exact (line_60_raises_on_huge_frequency _ H)].
Defined.
